(** * nanonis_reader.util: the file loader and the slide-deck report builder

    A shallow embedding of [src/nanonis_reader/util.py] (classes
    [NanonisData] and [DataToPPT]) and the properties its specification
    states about it.

    Python values are carried as follows.
    - [str] is [string], the UTF-8 bytes of the text; f-strings are
      concatenations, and [len], [zfill] and indexing count characters,
      not bytes.
    - [float] is the kernel's binary64 [float]; integers met in headers
      (pixel counts) are carried by the float that represents them, which
      is exact below 2^53 and is what true division [/] converts them to.
    - [dict] is a [gmap string _]; a dict display with a repeated key is a
      chain of inserts, the later one winning.
    - raising is a value of [exn] on the left of a sum; [print] appends to
      a list of lines; the presentation object that [add_slide] mutates is
      passed in and handed back, also when [add_slide] raises.
    - the parsers, the plotting backend, the presentation backend, [glob],
      numpy's reductions and the float/str conversions are collaborators:
      they are the fields of [Collab]. *)

From Stdlib Require Import Floats ZArith NArith Ascii String DecimalString DecimalFacts DecimalPos.
From stdpp Require Import gmap strings list.

(* A decimal float literal denotes the nearest binary64 value, as it does
   in Python. *)
Set Warnings "-inexact-float,-register-all".
Local Open Scope string_scope.

(** ** Exceptions and results *)

Inductive exn : Type :=
| ValueError (msg : string)
| KeyError (key : string)
| TypeError (msg : string)
| IndexError (msg : string)
| ZeroDivisionError (msg : string)
| UnboundLocalError (name : string)
| OtherError (kind msg : string).

(** [except ValueError] catches this and nothing else of [exn];
    [OtherError] stands for the collaborators' failures that are not
    value errors (I/O errors, parser errors, backend errors). *)
Definition is_ValueError (e : exn) : bool :=
  match e with ValueError _ => true | _ => false end.

(** [str(e)] for the exceptions whose text the code prints. *)
Definition exn_str (e : exn) : string :=
  match e with
  | ValueError m | TypeError m | IndexError m | ZeroDivisionError m => m
  | KeyError k => "'" +:+ k +:+ "'"
  | UnboundLocalError n => n
  | OtherError _ m => m
  end.

Definition res (A : Type) : Type := exn + A.

Definition rbind {A B} (r : res A) (k : A -> res B) : res B :=
  match r with inl e => inl e | inr a => k a end.

Notation "'let*' x := r 'in' k" := (rbind r (fun x => k))
  (at level 10, x name, r at level 100, k at level 200).

(** ** Strings *)

Module Str.

(** [s.split(c)] for a one-character separator: one more field than
    there are separators, empty fields kept. *)
Fixpoint split (c : ascii) (s : string) : list string :=
  match s with
  | EmptyString => [EmptyString]
  | String a s' =>
      if Ascii.eqb a c then EmptyString :: split c s'
      else match split c s' with
           | [] => [String a EmptyString]
           | w :: ws => String a w :: ws
           end
  end.

(** [c.join(l)] *)
Fixpoint join (c : string) (l : list string) : string :=
  match l with
  | [] => EmptyString
  | [w] => w
  | w :: ws => w +:+ c +:+ join c ws
  end.

Fixpoint zeros (n : nat) : string :=
  match n with O => EmptyString | S n' => String "0" (zeros n') end.

(** A [str] is held as its UTF-8 bytes: a byte 10xxxxxx continues the
    character that the bytes before it began. *)
Definition continuation (c : ascii) : bool :=
  let n := nat_of_ascii c in (128 <=? n)%nat && (n <? 192)%nat.

(** [len(s)]: the number of characters. *)
Fixpoint len (s : string) : nat :=
  match s with
  | EmptyString => O
  | String c s' => if continuation c then len s' else S (len s')
  end.

(** The continuation bytes at the head of [s]. *)
Fixpoint continuations (s : string) : string :=
  match s with
  | EmptyString => EmptyString
  | String c s' => if continuation c then String c (continuations s') else EmptyString
  end.

(** [s[i]] for [0 <= i]: the character number [i], if there is one. *)
Fixpoint char_at (i : nat) (s : string) : option string :=
  match s with
  | EmptyString => None
  | String c s' =>
      if continuation c then char_at i s'
      else match i with
           | O => Some (String c (continuations s'))
           | S i' => char_at i' s'
           end
  end.

(** [s.zfill(width)]: zeros go after a leading sign. *)
Definition zfill (width : nat) (s : string) : string :=
  let n := len s in
  if (width <=? n)%nat then s
  else
    let fill := zeros (width - n) in
    match s with
    | String c r =>
        if Ascii.eqb c "+" || Ascii.eqb c "-" then String c (fill +:+ r)
        else fill +:+ s
    | EmptyString => fill
    end.

(** [str(z)] for an [int]. *)
Definition of_Z (z : Z) : string := NilZero.string_of_int (Z.to_int z).

Definition startswith (s p : string) : bool := String.prefix p s.

Definition endswith (s suf : string) : bool :=
  let n := String.length s in
  let m := String.length suf in
  (m <=? n)%nat && String.eqb (substring (n - m) m s) suf.

Fixpoint contains (c : ascii) (s : string) : bool :=
  match s with
  | EmptyString => false
  | String a s' => Ascii.eqb a c || contains c s'
  end.

End Str.

(** ** [os.path] (POSIX flavour) *)

Module Path.

(** [os.path.join(a, b)] for a relative [b]. *)
Definition join (a b : string) : string :=
  if Str.startswith b "/" then b
  else if String.eqb a "" || Str.endswith a "/" then a +:+ b
  else a +:+ "/" +:+ b.

(** [os.path.basename(p)]: what follows the last slash. *)
Definition basename (p : string) : string :=
  List.last (Str.split "/" p) EmptyString.

(** Drop the empty fields at the end of a list of fields. *)
Fixpoint strip_empty (fields : list string) : list string :=
  match fields with
  | [] => []
  | w :: ws =>
      match strip_empty ws with
      | [] => if String.eqb w EmptyString then [] else [w]
      | ws' => w :: ws'
      end
  end.

(** [os.path.dirname(p)]: what precedes the base name, without its
    trailing slashes unless it is made of slashes only. *)
Definition dirname (p : string) : string :=
  let fields := removelast (Str.split "/" p) in
  if forallb (String.eqb EmptyString) fields
  then Str.join EmptyString (map (fun _ => "/") fields)
  else Str.join "/" (strip_empty fields).

(** The second component of [os.path.splitext(p)]: from the last dot of
    the base name on, unless only dots precede it. *)
Definition ext (p : string) : string :=
  let fields := Str.split "." (basename p) in
  match fields with
  | [] | [_] => EmptyString
  | _ =>
      if forallb (String.eqb EmptyString) (removelast fields) then EmptyString
      else "." +:+ List.last fields EmptyString
  end.

End Path.

(** ** Data model *)

(** Header values: "numbers, tuples, strings". *)
Inductive value : Type :=
| VNone
| VStr (s : string)
| VNum (x : float)
| VTuple (l : list value).

(** A numpy array: its shape and its entries in row-major order. *)
Record ndarray : Type := Arr { shape : list nat; entries : list float }.

(** The loaded file record: the public attributes that [NanonisData]
    copies from the parser's object (util.py 61-63). *)
Record NData : Type := {
  fname : string;
  header : gmap string value;
  signals : gmap string ndarray;
}.

Inductive handler : Type := Load_sxm | Load_dat | Load_3ds.

(** What is handed to the plotting backend before [savefig]. *)
Inductive artist : Type :=
| imshow (data : ndarray) (origin : string) (vmin vmax : float)
         (aspect : value) (cmap : string)
| colorbar (powerlimits : option (Z * Z))
| plot (xs ys : ndarray) (style : string)
| xlabel (s : string)
| ylabel (s : string)
| yscale (s : string)
| grid (on : bool).

Record figure : Type := Figure { figsize : float * float; artists : list artist }.

(** The bytes of a rendered PNG ([io.BytesIO]). *)
Definition image : Type := string.

(** A picture placed on a slide: positions and width in EMU. *)
Record picture : Type := Picture {
  pic_image : image; pic_left : Z; pic_top : Z; pic_width : Z;
}.

Record textbox : Type := TextBox {
  tb_left : Z; tb_top : Z; tb_width : Z; tb_height : Z; tb_text : string;
}.

Record slide : Type := Slide {
  slide_title : string;
  slide_pictures : list picture;
  slide_textboxes : list textbox;
}.

(** The presentation object [self.prs]: its slides, oldest first. *)
Definition presentation : Type := list slide.

(** ** Collaborators *)

Record Collab : Type := {
  (** [glob.glob(pattern)]: the matching paths, in the order the file
      system lists them *)
  glob : string -> list string;
  (** [nr.nanonis_sxm.Load], [nr.nanonis_dat.Load], [nr.nanonis_3ds.Load] *)
  Load : handler -> string -> res NData;
  (** [float(s)] for a [str]; [None] is its [ValueError] *)
  float_of_str : string -> option float;
  (** [str(v)] for a value that is not a [str] *)
  str_other : value -> string;
  (** [format(x, '.Nf')] *)
  format_f : nat -> float -> string;
  (** [np.nanmean], [np.nanstd] *)
  nanmean : ndarray -> float;
  nanstd : ndarray -> float;
  (** [nr.nanonis_sxm.topography(data).get_z(processing, direction)] *)
  get_z : NData -> string -> string -> res ndarray;
  (** [nr.nanonis_sxm.didvmap(data).get_map()] *)
  get_map : NData -> res ndarray;
  (** [nr.nanonis_dat.z_spectrum(data).get_iz()] *)
  get_iz : NData -> res (ndarray * ndarray);
  (** [nr.nanonis_dat.spectrum(data)]' s three curves *)
  didv_scaled : NData -> res (ndarray * ndarray);
  didv_normalized : NData -> res (ndarray * ndarray);
  iv_raw : NData -> res (ndarray * ndarray);
  (** [plt.savefig(stream, format='png', bbox_inches='tight', pad_inches=p)]
      of the current figure *)
  savefig : figure -> option float -> res image;
  (** [prs.save(path)] *)
  prs_save : presentation -> string -> res unit;
}.

(** ** The loader, [NanonisData.__init__] (util.py 12-65) *)

Inductive file_number_arg : Type :=
| FNone
| FInt (n : Z)
| FStr (s : string).

(** util.py 19-23 *)
Definition file_handlers (extension : string) : option handler :=
  if String.eqb extension ".sxm" then Some Load_sxm
  else if String.eqb extension ".dat" then Some Load_dat
  else if String.eqb extension ".3ds" then Some Load_3ds
  else None.

(** Truth value of the [keyword] argument: [None] and [''] are false. *)
Definition truthy (keyword : option string) : option string :=
  match keyword with
  | Some k => if String.eqb k "" then None else Some k
  | None => None
  end.

(** util.py 28: [str(file_number).zfill(4)] *)
Definition number_str (file_number : file_number_arg) : string :=
  Str.zfill 4 match file_number with
              | FInt n => Str.of_Z n
              | FStr s => s
              | FNone => "None"
              end.

(** util.py 31-34 *)
Definition pattern (base_path : string) (file_number : file_number_arg)
    (keyword : option string) : string :=
  match truthy keyword with
  | Some k => Path.join base_path ("*" +:+ k +:+ "*_" +:+ number_str file_number +:+ ".*")
  | None => Path.join base_path ("*_" +:+ number_str file_number +:+ ".*")
  end.

(** util.py 38-42 *)
Definition no_file_found (file_number : file_number_arg) (keyword : option string) : exn :=
  match truthy keyword with
  | Some k => ValueError ("No file found with number " +:+ number_str file_number
                          +:+ " and keyword '" +:+ k +:+ "'")
  | None => ValueError ("No file found with number " +:+ number_str file_number)
  end.

(** util.py 44-48: the lines printed when several files match *)
Definition multiple_warning (matching_files : list string) : list string :=
  (["Warning: Multiple files found. Files found:"]
   ++ map (fun f => "- " +:+ Path.basename f) matching_files
   ++ ["Using the first one: " +:+ Path.basename (hd EmptyString matching_files)])%list.

Section Loader.
Context (C : Collab).

(** util.py 26-52: the printed lines and [filepath] *)
Definition resolve (base_path : string) (file_number : file_number_arg)
    (keyword : option string) : list string * res string :=
  match file_number with
  | FNone => ([], inr base_path)
  | _ =>
      let matching_files := glob C (pattern base_path file_number keyword) in
      match matching_files with
      | [] => ([], inl (no_file_found file_number keyword))
      | first :: _ =>
          (if (1 <? length matching_files)%nat
           then multiple_warning matching_files else [],
           inr first)
      end
  end.

(** util.py 55-65 *)
Definition load_path (filepath : string) : res NData :=
  let extension := Path.ext filepath in
  match file_handlers extension with
  | Some h => Load C h filepath
  | None => inl (ValueError ("Unsupported file extension: " +:+ extension))
  end.

Definition NanonisData (base_path : string) (file_number : file_number_arg)
    (keyword : option string) : list string * res NData :=
  let '(out, r) := resolve base_path file_number keyword in
  (out, let* filepath := r in load_path filepath).

End Loader.

(** ** Python operations on header values *)

(** [d[k]] *)
Definition getitem {A} (d : gmap string A) (k : string) : res A :=
  match d !! k with
  | Some v => inr v
  | None => inl (KeyError k)
  end.

(** A dict display [{k1: v1, k2: v2, ...}]: the pairs are stored from left
    to right, so a repeated key keeps the value written last. *)
Definition dict_display {A} (pairs : list (string * A)) : gmap string A :=
  fold_left (fun d kv => <[kv.1 := kv.2]> d) pairs ∅.

(** [v[i]] *)
Definition getindex (v : value) (i : nat) : res value :=
  match v with
  | VTuple l =>
      match l !! i with
      | Some x => inr x
      | None => inl (IndexError "tuple index out of range")
      end
  | VStr s =>
      match Str.char_at i s with
      | Some c => inr (VStr c)
      | None => inl (IndexError "string index out of range")
      end
  | _ => inl (TypeError "object is not subscriptable")
  end.

(** [a / b] on Python floats *)
Definition truediv (a b : value) : res value :=
  match a, b with
  | VNum x, VNum y =>
      if PrimFloat.eqb y 0 then inl (ZeroDivisionError "float division by zero")
      else inr (VNum (x / y))
  | _, _ => inl (TypeError "unsupported operand type(s) for /")
  end.

(** [a * b] on Python floats *)
Definition mul (a b : value) : res value :=
  match a, b with
  | VNum x, VNum y => inr (VNum (x * y))
  | _, _ => inl (TypeError "unsupported operand type(s) for *")
  end.

(** [format(v, '.Nf')] needs a number. *)
Definition format_fixed (C : Collab) (digits : nat) (v : value) : res string :=
  match v with
  | VNum x => inr (format_f C digits x)
  | _ => inl (TypeError "unsupported format string")
  end.

(** [float(v)] *)
Definition to_float (C : Collab) (v : value) : res float :=
  match v with
  | VNum x => inr x
  | VStr s =>
      match float_of_str C s with
      | Some x => inr x
      | None => inl (ValueError ("could not convert string to float: '" +:+ s +:+ "'"))
      end
  | _ => inl (TypeError "float() argument must be a string or a real number")
  end.

(** [str(v)], as an f-string field renders it *)
Definition to_str (C : Collab) (v : value) : string :=
  match v with
  | VStr s => s
  | _ => str_other C v
  end.

(** [v == s] for a [str] literal [s] *)
Definition eq_str (v : value) (s : string) : bool :=
  match v with
  | VStr t => String.eqb t s
  | _ => false
  end.

Definition nl : string := String "010"%char EmptyString.

(** ** Parameter extraction (util.py 83-179) *)

(** util.py 101-109, the [format_date] of [get_sxm_parameters]. A value
    without [.split], or one that does not unpack into three fields,
    raises inside the [try] and comes back as it is. *)
Definition sxm_format_date (date_str : value) : value :=
  match date_str with
  | VStr s =>
      match Str.split "." s with
      | [day; month; year] => VStr (year +:+ "." +:+ month +:+ "." +:+ day)
      | _ => date_str
      end
  | _ => date_str
  end.

(** util.py 130-145, the [format_date] of [get_dat_parameters]. *)
Definition dat_format_date (date_str : value) : value :=
  match date_str with
  | VStr s =>
      match Str.split " " s with
      | [date_part; time_part] =>
          match Str.split "." date_part with
          | [day; month; year] =>
              let formatted_date := year +:+ "." +:+ month +:+ "." +:+ day in
              VStr (formatted_date +:+ "_" +:+ time_part)
          | _ => date_str
          end
      | _ => date_str
      end
  | _ => date_str
  end.

(** util.py 111-123 *)
Definition get_sxm_parameters (data : NData) : res (gmap string value) :=
  let* pixels := getitem (header data) "scan_pixels" in
  let* range := getitem (header data) "scan_range" in
  let* direction := getitem (header data) "scan_dir" in
  let* angle := getitem (header data) "scan_angle" in
  let* bias := getitem (header data) "bias>bias (v)" in
  let* current := getitem (header data) "z-controller>setpoint" in
  let* scan_time := getitem (header data) "rec_time" in
  let* rec_date := getitem (header data) "rec_date" in
  let params := dict_display
    [("pixels", pixels); ("range", range); ("direction", direction);
     ("angle", angle); ("bias", bias); ("current", current);
     ("scan_time", scan_time); ("scan_date", sxm_format_date rec_date)] in
  let* px := getindex pixels 0 in
  let* py := getindex pixels 1 in
  let* p := truediv px py in
  let* ry := getindex range 1 in
  let* rx := getindex range 0 in
  let* r := truediv ry rx in
  let* aspect_ratio := mul p r in
  inr (<["aspect_ratio" := aspect_ratio]> params).

(** util.py 147-169 *)
Definition get_dat_parameters (data : NData) : res (gmap string value) :=
  if bool_decide ("Z rel (m)" ∈ dom (signals data)) then
    let* bias := getitem (header data) "Bias>Bias (V)" in
    let* current := getitem (header data) "Z-Controller>Setpoint" in
    let* bias_sweep_num := getitem (header data) "Bias Spectroscopy>Number of sweeps" in
    let* offset := getitem (header data) "Z Spectroscopy>Initial Z-offset (m)" in
    let* sweep_z := getitem (header data) "Z Spectroscopy>Sweep distance (m)" in
    let* z_sweep_num := getitem (header data) "Z Spectroscopy>Number of sweeps" in
    let* comment := getitem (header data) "Comment01" in
    let* saved_date := getitem (header data) "Saved Date" in
    inr (dict_display
      [("bias", bias); ("current", current); ("sweep_num", bias_sweep_num);
       ("offset", offset); ("sweep_z", sweep_z); ("sweep_num", z_sweep_num);
       ("comment", comment); ("saved_date", dat_format_date saved_date)])
  else
    let* bias := getitem (header data) "Bias>Bias (V)" in
    let* current := getitem (header data) "Z-Controller>Setpoint" in
    let* sweep_start := getitem (header data) "Bias Spectroscopy>Sweep Start (V)" in
    let* sweep_end := getitem (header data) "Bias Spectroscopy>Sweep End (V)" in
    let* sweep_num := getitem (header data) "Bias Spectroscopy>Number of sweeps" in
    let* comment := getitem (header data) "Comment01" in
    let* saved_date := getitem (header data) "Saved Date" in
    inr (dict_display
      [("bias", bias); ("current", current); ("sweep_start", sweep_start);
       ("sweep_end", sweep_end); ("sweep_num", sweep_num);
       ("comment", comment); ("saved_date", dat_format_date saved_date)]).

(** util.py 173-179 *)
Definition get_3ds_parameters (data : NData) : res (gmap string value) :=
  inr ∅.

(** util.py 83-94 *)
Definition get_scan_parameters (data : NData) : res (gmap string value) :=
  if Str.endswith (fname data) ".sxm" then get_sxm_parameters data
  else if Str.endswith (fname data) ".dat" then get_dat_parameters data
  else if Str.endswith (fname data) ".3ds" then get_3ds_parameters data
  else inl (ValueError ("Unsupported file type: " +:+ fname data)).

(** ** Caption texts (util.py 181-235) *)

Section Captions.
Context (C : Collab).

(** util.py 187-193: the set-point current in nA, or in pA below 1 nA *)
Definition current_text (current : float) : string :=
  if PrimFloat.leb 1e-9 (PrimFloat.abs current)
  then format_f C 0 (current * 1e9) +:+ " nA"
  else format_f C 0 (current * 1e12) +:+ " pA".

(** util.py 181-198 *)
Definition get_sxm_info_text (params : gmap string value) : res string :=
  let* bias := getitem params "bias" in
  let* bias := to_float C bias in
  let t1 := str_other C (VNum bias) +:+ " V /" in
  let* current := getitem params "current" in
  let* current := to_float C current in
  let t2 := current_text current in
  let* range := getitem params "range" in
  let* rx := getindex range 0 in
  let* rx := mul rx (VNum 1e9) in
  let* rx := format_fixed C 0 rx in
  let* range := getitem params "range" in
  let* ry := getindex range 1 in
  let* ry := mul ry (VNum 1e9) in
  let* ry := format_fixed C 0 ry in
  let t3 := nl +:+ rx +:+ " x " +:+ ry +:+ " nm²" in
  let* direction := getitem params "direction" in
  let* angle := getitem params "angle" in
  let* angle := to_float C angle in
  let t4 := "(" +:+ to_str C direction +:+ ", " +:+ format_f C 1 angle +:+ "˚)" in
  let* scan_date := getitem params "scan_date" in
  let* scan_time := getitem params "scan_time" in
  let t5 := nl +:+ "(" +:+ to_str C scan_date +:+ "_" +:+ to_str C scan_time +:+ ")" in
  inr (Str.join " " [t1; t2; t3; t4; t5]).

(** util.py 200-228 *)
Definition get_dat_info_text (params : gmap string value) : res string :=
  if bool_decide ("sweep_z" ∈ dom params) then
    let* bias := getitem params "bias" in
    let* bias := to_float C bias in
    let t1 := str_other C (VNum bias) +:+ " V /" in
    let* current := getitem params "current" in
    let* current := to_float C current in
    let t2 := current_text current in
    let* saved_date := getitem params "saved_date" in
    let t3 := nl +:+ "(" +:+ to_str C saved_date +:+ ")" in
    inr (Str.join " " [t1; t2; t3])
  else
    let* bias := getitem params "bias" in
    let* bias := to_float C bias in
    let t1 := str_other C (VNum bias) +:+ " V /" in
    let* current := getitem params "current" in
    let* current := to_float C current in
    let t2 := current_text current in
    let* sweep_start := getitem params "sweep_start" in
    let* sweep_start := to_float C sweep_start in
    let* sweep_end := getitem params "sweep_end" in
    let* sweep_end := to_float C sweep_end in
    let* sweep_num := getitem params "sweep_num" in
    let t3 := nl +:+ str_other C (VNum sweep_start) +:+ " V to "
              +:+ str_other C (VNum sweep_end) +:+ " V (sweeps: "
              +:+ to_str C sweep_num +:+ ")" in
    let* saved_date := getitem params "saved_date" in
    let t4 := nl +:+ "(" +:+ to_str C saved_date +:+ ")" in
    inr (Str.join " " [t1; t2; t3; t4]).

(** util.py 230-235 *)
Definition get_3ds_info_text (params : gmap string value) : string :=
  "3DS file parameters".

End Captions.

(** ** Plot rendering (util.py 237-417) *)

(** [a * k] and [np.abs(a)], entry by entry *)
Definition arr_scale (a : ndarray) (k : float) : ndarray :=
  Arr (shape a) (map (fun x => x * k)%float (entries a)).

Definition arr_abs (a : ndarray) : ndarray :=
  Arr (shape a) (map PrimFloat.abs (entries a)).

Section Rendering.
Context (C : Collab).

(** util.py 237-240: [mean + np.array([-3, 3]) * sigma] *)
Definition get_3sigma_limits (data : ndarray) : float * float :=
  let mean := nanmean C data in
  let sigma := nanstd C data in
  ((mean + (-3) * sigma)%float, (mean + 3 * sigma)%float).

Definition nanox : string := "nanox".
Definition bwr : string := "bwr".

(** util.py 242-328 *)
Definition process_sxm_file (data : NData) : res (list image) :=
  let* params := get_scan_parameters data in
  let figsize := (5, 5)%float in
  let* z_data := get_z C data "subtract linear fit" "fwd" in
  let* direction := getitem params "direction" in
  let origin := if eq_str direction "down" then "upper" else "lower" in
  let '(vmin, vmax) := get_3sigma_limits z_data in
  let* aspect := getitem params "aspect_ratio" in
  let* img_stream1 :=
    savefig C (Figure figsize
                 [imshow z_data origin vmin vmax aspect nanox; colorbar None])
            (Some 0.01%float) in
  let* z_data_diff := get_z C data "differentiate" "fwd" in
  let '(vmin, vmax) := get_3sigma_limits z_data_diff in
  let* aspect := getitem params "aspect_ratio" in
  let* img_stream2 :=
    savefig C (Figure figsize
                 [imshow z_data_diff origin vmin vmax aspect nanox;
                  colorbar (Some (-3, 4)%Z)])
            (Some 0.01%float) in
  if bool_decide ("LI_Demod_1_X" ∈ dom (signals data)) then
    let* didv_data := get_map C data in
    let '(vmin, vmax) := get_3sigma_limits didv_data in
    let* aspect := getitem params "aspect_ratio" in
    let* img_stream3 :=
      savefig C (Figure figsize
                   [imshow didv_data origin vmin vmax aspect bwr; colorbar None])
              (Some 0.01%float) in
    inr [img_stream1; img_stream2; img_stream3]
  else
    inr [img_stream1; img_stream2].

(** util.py 330-403. The figures are never closed here ([plt.close] is
    named, not called); each [savefig] still saves the figure just
    opened. *)
Definition process_dat_file (data : NData) : res (list image) :=
  let* params := get_dat_parameters data in
  let figsize := (5, 5)%float in
  if bool_decide ("sweep_z" ∈ dom params) then
    let* spec_z := get_iz C data in
    let* img_stream1 :=
      savefig C (Figure figsize
                   [plot (arr_scale spec_z.1 1e9) (arr_scale spec_z.2 1e9) "k-";
                    xlabel "Z (nm)"; ylabel "Current (nA)"])
              (Some 0.1%float) in
    let* img_stream2 :=
      savefig C (Figure figsize
                   [plot (arr_scale spec_z.1 1e9) (arr_abs (arr_scale spec_z.2 1e9)) "k-";
                    xlabel "Z (nm)"; ylabel "|Current| (nA)"; yscale "log"; grid true])
              (Some 0.1%float) in
    inr [img_stream1; img_stream2]
  else
    let* didv_scaled := didv_scaled C data in
    let* img_stream1 :=
      savefig C (Figure figsize
                   [plot didv_scaled.1 (arr_scale didv_scaled.2 1e9) "k-";
                    xlabel "Bias (V)"; ylabel "dI/dV (nS)"])
              (Some 0.1%float) in
    let* didv_norm := didv_normalized C data in
    let* img_stream2 :=
      savefig C (Figure figsize
                   [plot didv_norm.1 didv_norm.2 "k-";
                    xlabel "Bias (V)"; ylabel "Norm. dI/dV"])
              (Some 0.1%float) in
    let* iv := iv_raw C data in
    let* img_stream3 :=
      savefig C (Figure figsize
                   [plot iv.1 (arr_scale iv.2 1e12) "k-";
                    xlabel "Bias (V)"; ylabel "Current (pA)"])
              (Some 0.1%float) in
    inr [img_stream1; img_stream2; img_stream3].

(** util.py 405-417 *)
Definition process_3ds_file (data : NData) : res image :=
  savefig C (Figure (10, 8)%float []) None.

End Rendering.

(** ** The presentation backend (python-pptx) *)

(** [int(x)] for a finite float: truncation towards zero. *)
Definition float_trunc (x : float) : Z :=
  match Prim2SF x with
  | S754_finite s m e =>
      let v := if (0 <=? e)%Z then (Z.pos m * 2 ^ e)%Z else (Z.pos m / 2 ^ (- e))%Z in
      if s then (- v)%Z else v
  | _ => 0%Z
  end.

(** [pptx.util.Inches(x)]: a length in EMU, 914400 to the inch. *)
Definition Inches (x : float) : Z := float_trunc (x * 914400).

(** Statements that act on the slide being filled and may raise: the slide
    is handed back in both cases, since it is mutated in place. *)
Definition on_slide (A : Type) : Type := slide -> slide * res A.

Definition sret {A} (a : A) : on_slide A := fun s => (s, inr a).

Definition sbind {A B} (m : on_slide A) (k : A -> on_slide B) : on_slide B :=
  fun s => let '(s', r) := m s in
           match r with
           | inl e => (s', inl e)
           | inr a => k a s'
           end.

Definition lift {A} (r : res A) : on_slide A := fun s => (s, r).

Notation "'do*' x := m 'in' k" := (sbind m (fun x => k))
  (at level 10, x name, m at level 100, k at level 200).

(** [slide.shapes.add_picture(image, left, top, width=width)] *)
Definition add_picture (img : image) (left top width : Z) : on_slide unit :=
  fun s => (Slide (slide_title s)
                  (slide_pictures s ++ [Picture img left top width])%list
                  (slide_textboxes s), inr tt).

(** [slide.shapes.add_textbox(left, top, width, height)] followed by
    [text_frame.text = text] *)
Definition add_textbox (left top width height : Z) (text : string) : on_slide unit :=
  fun s => (Slide (slide_title s) (slide_pictures s)
                  (slide_textboxes s ++ [TextBox left top width height text])%list, inr tt).

(** Tuple unpacking into two and into three targets. *)
Definition unpack2 {A} (l : list A) : res (A * A) :=
  match l with
  | [a; b] => inr (a, b)
  | _ => inl (ValueError (if (length l <? 2)%nat
                          then "not enough values to unpack (expected 2)"
                          else "too many values to unpack (expected 2)"))
  end.

Definition unpack3 {A} (l : list A) : res (A * A * A) :=
  match l with
  | [a; b; c] => inr (a, b, c)
  | _ => inl (ValueError (if (length l <? 3)%nat
                          then "not enough values to unpack (expected 3)"
                          else "too many values to unpack (expected 3)"))
  end.

(** ** The report assembler (util.py 67-81, 419-518) *)

(** The fields [__init__] stores (util.py 76-80). The presentation
    [self.prs], which [__init__] creates empty, is mutated by the methods:
    it is threaded through them as an argument and a result. *)
Record DataToPPT : Type := {
  base_path : string;
  start_num : Z;
  end_num : Z;
  keyword : option string;
  output_filename : string;
}.

Section Report.
Context (C : Collab).

(** util.py 443-448 and 473-478: three images side by side *)
Definition place3 (imgs : list image) (base_size : float) (img_top width : Z)
    : on_slide unit :=
  do* streams := lift (unpack3 imgs) in
  let '(img_stream1, img_stream2, img_stream3) := streams in
  do* _ := add_picture img_stream1 (Inches 0) img_top width in
  do* _ := add_picture img_stream2 (Inches (0 + base_size * 1.02)) img_top width in
  add_picture img_stream3 (Inches (0 + base_size * 2.04)) img_top width.

(** util.py 450-455 and 469-471: two images side by side *)
Definition place2 (imgs : list image) (base_size : float) (img_top width : Z)
    : on_slide unit :=
  do* streams := lift (unpack2 imgs) in
  let '(img_stream1, img_stream2) := streams in
  do* _ := add_picture img_stream1 (Inches 0) img_top width in
  add_picture img_stream2 (Inches (0 + base_size * 1.02)) img_top width.

(** util.py 430-494: what [add_slide] does to the slide it has just
    created and titled *)
Definition fill_slide (data : NData) : on_slide unit :=
  do* caption :=
    if Str.endswith (fname data) ".sxm" then
      do* params := lift (get_scan_parameters data) in
      let base_size := 3.2%float in
      let width := Inches base_size in
      let height := Inches base_size in
      let img_top := Inches 1.5 in
      do* _ :=
        if bool_decide ("LI_Demod_1_X" ∈ dom (signals data)) then
          do* imgs := lift (process_sxm_file C data) in
          place3 imgs base_size img_top width
        else
          do* imgs := lift (process_sxm_file C data) in
          place2 imgs base_size img_top width in
      let text_top := (img_top + height + Inches 0.2)%Z in
      do* info_text := lift (get_sxm_info_text C params) in
      sret (text_top, info_text)
    else if Str.endswith (fname data) ".dat" then
      do* params := lift (get_dat_parameters data) in
      let base_size := 3.2%float in
      let width := Inches base_size in
      let height := Inches base_size in
      let img_top := Inches 1.5 in
      do* _ :=
        if bool_decide ("sweep_z" ∈ dom params) then
          do* imgs := lift (process_dat_file C data) in
          place2 imgs base_size img_top width
        else
          do* imgs := lift (process_dat_file C data) in
          place3 imgs base_size img_top width in
      let text_top := (img_top + height + Inches 0.2)%Z in
      do* info_text := lift (get_dat_info_text C params) in
      sret (text_top, info_text)
    else if Str.endswith (fname data) ".3ds" then
      do* params := lift (get_scan_parameters data) in
      let info_text := get_3ds_info_text params in
      let text_top := Inches 6 in
      do* img_stream := lift (process_3ds_file C data) in
      sret (text_top, info_text)
    else
      lift (inl (UnboundLocalError "text_top")) in
  let '(text_top, info_text) := caption in
  add_textbox (Inches 1) text_top (Inches 8) (Inches 0.5)
    (if String.eqb info_text "" then "No parameters available" else info_text).

(** util.py 419-494: a new slide is appended to the presentation and
    titled before anything can raise. *)
Definition add_slide (prs : presentation) (data : NData) : presentation * res unit :=
  let slide := Slide ("File: " +:+ fname data) [] [] in
  let '(slide', r) := fill_slide data slide in
  ((prs ++ [slide'])%list, r).

(** util.py 503-509: the body of the [try] for index [i] *)
Definition try_body (self : DataToPPT) (i : Z) (prs : presentation)
    : presentation * list string * res unit :=
  let '(out, r) := NanonisData C (base_path self) (FInt i) (keyword self) in
  match r with
  | inl e => (prs, out, inl e)
  | inr data =>
      let '(prs', r') := add_slide prs data in
      (prs', (out ++ ["Processing file: " +:+ fname data])%list, r')
  end.

(** util.py 502-513: the loop over the indices still to do. A value
    error is printed and the loop goes on; any other exception leaves
    the loop. *)
Fixpoint batch_loop (self : DataToPPT) (indices : list Z) (prs : presentation)
    : presentation * list string * res unit :=
  match indices with
  | [] => (prs, [], inr tt)
  | i :: rest =>
      let '(prs', out, r) := try_body self i prs in
      let continue (printed : list string) :=
        let '(prs'', out', r') := batch_loop self rest prs' in
        (prs'', (out ++ printed ++ out')%list, r') in
      match r with
      | inr _ => continue []
      | inl e =>
          if is_ValueError e
          then continue ["Skipping number " +:+ Str.of_Z i +:+ ": " +:+ exn_str e]
          else (prs', out, inl e)
      end
  end.

(** [range(start, end + 1)] *)
Definition index_range (self : DataToPPT) : list Z :=
  seqZ (start_num self) (end_num self + 1 - start_num self).

(** util.py 516-517: [save_path + self.output_filename] *)
Definition save_path (self : DataToPPT) : string :=
  base_path self +:+ "PPT/" +:+ output_filename self.

(** util.py 500 *)
Definition banner (self : DataToPPT) : string :=
  "Generating PPT for files " +:+ Str.of_Z (start_num self)
  +:+ " to " +:+ Str.of_Z (end_num self) +:+ "...".

(** util.py 518, printed once the presentation has been saved *)
Definition saved_line (self : DataToPPT) : string :=
  "PPT has been saved as " +:+ save_path self.

(** util.py 496-518, started on a presentation [prs]: the presentation
    as the run leaves it, the printed lines, and how the run ends *)
Definition generate_ppt (self : DataToPPT) (prs : presentation)
    : presentation * list string * res unit :=
  let '(prs', out, r) := batch_loop self (index_range self) prs in
  match r with
  | inl e => (prs', banner self :: out, inl e)
  | inr _ =>
      match prs_save C prs' (save_path self) with
      | inl e => (prs', banner self :: out, inl e)
      | inr _ => (prs', (banner self :: out ++ [saved_line self])%list, inr tt)
      end
  end.

End Report.

(** ** A concrete set of collaborators

    A directory listing, parsed records by path and simple stand-ins for
    the numeric and plotting backends, so that the code above can be run
    on concrete files. *)

Module Example.

(** [fnmatch] for patterns made of literal characters, [*] and [?] *)
Fixpoint wild (p : list ascii) (s : list ascii) : bool :=
  match p with
  | [] => match s with [] => true | _ => false end
  | c :: p' =>
      if Ascii.eqb c "*" then
        (fix star (s : list ascii) : bool :=
           wild p' s || match s with [] => false | _ :: s' => star s' end) s
      else
        match s with
        | [] => false
        | a :: s' => (Ascii.eqb c "?" || Ascii.eqb c a) && wild p' s'
        end
  end.

Definition fnmatch (name pat : string) : bool :=
  wild (list_ascii_of_string pat) (list_ascii_of_string name).

(** A flat directory: its path and its entries in listing order. *)
Record directory : Type := { dir_path : string; dir_names : list string }.

(** [glob.glob] on a flat directory: the entries that match the last
    component of the pattern, in listing order, hidden entries left out
    unless the pattern asks for them. *)
Definition listing_glob (d : directory) (pattern : string) : list string :=
  let pat := Path.basename pattern in
  if String.eqb (Path.dirname pattern) (dir_path d) then
    map (Path.join (dir_path d))
        (List.filter (fun name => fnmatch name pat
                                  && (Str.startswith pat "." || negb (Str.startswith name ".")))
                     (dir_names d))
  else [].

(** The parsers: the record stored for a path, an I/O error otherwise. *)
Definition load_from (files : list (string * NData)) (h : handler) (path : string)
    : res NData :=
  match List.find (fun f => String.eqb f.1 path) files with
  | Some f => inr f.2
  | None => inl (OtherError "FileNotFoundError" path)
  end.

(** The float nearest to the integer [z]. *)
Definition Z_to_float (z : Z) : float := SF2Prim (binary_normalize prec emax z 0 false).

(** The float nearest to [num / den], for [0 < num] and [0 < den]: the
    quotient is taken with more bits than a float holds and one more bit
    that says whether anything was cut. *)
Definition ratio_to_float (num den : Z) : float :=
  let s := Z.max 0 (Z.log2 den - Z.log2 num + 56) in
  let n := (num * 2 ^ s)%Z in
  let sticky := if (n mod den =? 0)%Z then 0%Z else 1%Z in
  SF2Prim (binary_normalize prec emax (2 * (n / den) + sticky) (- (s + 1)) false).

(** The float nearest to [m * 10^e], for [0 <= m] written with [digits]
    digits. *)
Definition decimal_to_float (m : Z) (digits : nat) (e : Z) : float :=
  if (m =? 0)%Z then 0%float
  else if (310 <? e)%Z then infinity
  else if (e + Z.of_nat digits <? -330)%Z then 0%float
  else if (0 <=? e)%Z then ratio_to_float (m * 10 ^ e) 1
  else ratio_to_float m (10 ^ (- e)).

Definition digit_of (c : ascii) : option Z :=
  let n := Z.of_nat (nat_of_ascii c) in
  if (48 <=? n)%Z && (n <=? 57)%Z then Some (n - 48)%Z else None.

Definition is_digit (c : ascii) : bool :=
  match digit_of c with Some _ => true | None => false end.

(** The digits of [s] as a number and their count, if [s] is made of
    digits only. *)
Fixpoint digits_value (acc : Z) (count : nat) (s : string) : option (Z * nat) :=
  match s with
  | EmptyString => Some (acc, count)
  | String c s' =>
      match digit_of c with
      | Some d => digits_value (10 * acc + d) (S count) s'
      | None => None
      end
  end.

Definition strip_sign (s : string) : bool * string :=
  match s with
  | String c r =>
      if Ascii.eqb c "-" then (true, r)
      else if Ascii.eqb c "+" then (false, r)
      else (false, s)
  | EmptyString => (false, s)
  end.

Definition signed (neg : bool) (x : float) : float := if neg then (- x)%float else x.

(** Blanks: space, tab, line feed, vertical tab, form feed, carriage
    return. *)
Definition is_blank (c : ascii) : bool :=
  let n := nat_of_ascii c in (n =? 32)%nat || ((9 <=? n)%nat && (n <=? 13)%nat).

Fixpoint lstrip (s : string) : string :=
  match s with
  | String c r => if is_blank c then lstrip r else s
  | EmptyString => s
  end.

Fixpoint rstrip (s : string) : string :=
  match s with
  | String c r =>
      match rstrip r with
      | EmptyString => if is_blank c then EmptyString else String c EmptyString
      | r' => String c r'
      end
  | EmptyString => s
  end.

Definition lower (c : ascii) : ascii :=
  let n := nat_of_ascii c in
  if (65 <=? n)%nat && (n <=? 90)%nat then ascii_of_nat (n + 32) else c.

Fixpoint lowercase (s : string) : string :=
  match s with
  | String c r => String (lower c) (lowercase r)
  | EmptyString => s
  end.

(** An underscore may stand between two digits; it is dropped there and
    makes the literal invalid anywhere else. *)
Fixpoint drop_underscores (after_digit : bool) (s : string) : option string :=
  match s with
  | EmptyString => Some EmptyString
  | String c r =>
      if Ascii.eqb c "_" then
        match r with
        | String d _ => if after_digit && is_digit d then drop_underscores false r else None
        | EmptyString => None
        end
      else option_map (String c) (drop_underscores (is_digit c) r)
  end.

(** The exponent [[+-]digits] of a literal. *)
Definition exponent (s : string) : option Z :=
  let '(neg, body) := strip_sign s in
  match digits_value 0 0 body with
  | Some (m, n) => if (0 <? n)%nat then Some (if neg then (- m)%Z else m) else None
  | None => None
  end.

(** The mantissa [digits[.digits]] or [.digits] of a literal: its digits
    as a number, their count, and how many of them follow the point. *)
Definition mantissa (s : string) : option (Z * nat * nat) :=
  match Str.split "." s with
  | [ip] =>
      match digits_value 0 0 ip with
      | Some (m, n) => if (0 <? n)%nat then Some (m, n, O) else None
      | None => None
      end
  | [ip; fp] =>
      match digits_value 0 0 (ip +:+ fp) with
      | Some (m, n) => if (0 <? n)%nat then Some (m, n, String.length fp) else None
      | None => None
      end
  | _ => None
  end.

(** [float(s)] for a [str] of ASCII characters: blanks around the
    literal are dropped, then come a sign and [inf], [infinity], [nan] in
    any case or a decimal literal with an optional exponent; the result is
    the nearest float. [None] where Python raises [ValueError]. *)
Definition float_of_decimal (s : string) : option float :=
  let '(neg, body) := strip_sign (lowercase (rstrip (lstrip s))) in
  if String.eqb body "inf" || String.eqb body "infinity" then Some (signed neg infinity)
  else if String.eqb body "nan" then Some nan
  else
    match drop_underscores false body with
    | None => None
    | Some body =>
        match Str.split "e" body with
        | [m] =>
            match mantissa m with
            | Some (m, n, k) => Some (signed neg (decimal_to_float m n (- Z.of_nat k)))
            | None => None
            end
        | [m; e] =>
            match mantissa m, exponent e with
            | Some (m, n, k), Some e =>
                Some (signed neg (decimal_to_float m n (e - Z.of_nat k)))
            | _, _ => None
            end
        | _ => None
        end
    end.

(** Rounding of [num / den] to the nearest integer, ties to even. *)
Definition round_half_even (num den : Z) : Z :=
  let q := (num / den)%Z in
  let r := (num mod den)%Z in
  match (2 * r ?= den)%Z with
  | Lt => q
  | Gt => (q + 1)%Z
  | Eq => if Z.even q then q else (q + 1)%Z
  end.

(** [format(x, '.Nf')]: the exact value of [x] rounded to [digits]
    decimals, ties to even. *)
Definition format_fixed_point (digits : nat) (x : float) : string :=
  let render (neg : bool) (n : Z) : string :=
    let ds := Str.of_Z n in
    let ds := Str.zeros (S digits - String.length ds) +:+ ds in
    let k := (String.length ds - digits)%nat in
    (if neg then "-" else "")
    +:+ substring 0 k ds
    +:+ (if (0 <? digits)%nat then "." +:+ substring k digits ds else "") in
  match Prim2SF x with
  | S754_nan => "nan"
  | S754_infinity s => if s then "-inf" else "inf"
  | S754_zero s => render s 0%Z
  | S754_finite s m e =>
      let scale := (10 ^ Z.of_nat digits)%Z in
      render s (if (0 <=? e)%Z then (Z.pos m * 2 ^ e * scale)%Z
                else round_half_even (Z.pos m * scale) (2 ^ (- e)))
  end.

(** [num / den * 10^e] as a fraction. *)
Definition scaled (num den e : Z) : Z * Z :=
  if (0 <=? e)%Z then (num * 10 ^ e, den)%Z else (num, den * 10 ^ (- e))%Z.

(** The position of the decimal point of [num / den]: the [k] with
    [10^(k-1) <= num / den < 10^k]. *)
Definition decimal_point (num den : Z) : Z :=
  let guess := ((Z.log2 num - Z.log2 den - 1) * 30103 / 100000 - 1)%Z in
  let below k := let '(n, d) := scaled num den (- k) in (n <? d)%Z in
  match List.find below (map (fun i => guess + Z.of_nat i)%Z (seq 0 6)) with
  | Some k => k
  | None => guess
  end.

Fixpoint strip_zeros (fuel : nat) (d e : Z) : Z * Z :=
  match fuel with
  | O => (d, e)
  | S fuel' => if (d mod 10 =? 0)%Z then strip_zeros fuel' (d / 10) (e + 1) else (d, e)
  end.

(** The decimal [d * 10^e] of [n] digits that reads back as the float [x]
    of value [num / den] and is nearest to it, if there is one. *)
Definition shortest_at (x : float) (num den k : Z) (n : nat) : option (Z * Z) :=
  let e := (k - Z.of_nat n)%Z in
  let '(sn, sd) := scaled num den (- e) in
  let lo := (sn / sd)%Z in
  let hi := (lo + 1)%Z in
  let ok d := PrimFloat.eqb (decimal_to_float d n e) x in
  let nearer_lo := (2 * (sn mod sd) <=? sd)%Z in
  match ok lo, ok hi with
  | true, true => Some (if nearer_lo then lo else hi, e)
  | true, false => Some (lo, e)
  | false, true => Some (hi, e)
  | false, false => None
  end.

Fixpoint shortest (x : float) (num den k : Z) (n fuel : nat) : Z * Z :=
  match fuel with
  | O => (0%Z, 0%Z)
  | S fuel' =>
      match shortest_at x num den k n with
      | Some de => de
      | None => shortest x num den k (S n) fuel'
      end
  end.

(** [repr(x)] of a float: the shortest decimal that reads back as [x],
    in exponent notation when its decimal point falls outside the
    digits by more than Python allows. *)
Definition float_str (x : float) : string :=
  match Prim2SF x with
  | S754_nan => "nan"
  | S754_infinity s => if s then "-inf" else "inf"
  | S754_zero s => if s then "-0.0" else "0.0"
  | S754_finite s m e =>
      let '(num, den) := if (0 <=? e)%Z then (Z.pos m * 2 ^ e, 1)%Z
                         else (Z.pos m, 2 ^ (- e))%Z in
      let k := decimal_point num den in
      let '(d, e10) := shortest (PrimFloat.abs x) num den k 1 17 in
      let '(d, e10) := strip_zeros 17 d e10 in
      let ds := Str.of_Z d in
      let nd := String.length ds in
      let decpt := (Z.of_nat nd + e10)%Z in
      (if s then "-" else "") +:+
      (if (-4 <? decpt)%Z && (decpt <=? 16)%Z then
         if (decpt <=? 0)%Z then "0." +:+ Str.zeros (Z.to_nat (- decpt)) +:+ ds
         else if (Z.of_nat nd <=? decpt)%Z
              then ds +:+ Str.zeros (Z.to_nat decpt - nd) +:+ ".0"
              else substring 0 (Z.to_nat decpt) ds +:+ "."
                   +:+ substring (Z.to_nat decpt) (nd - Z.to_nat decpt) ds
       else
         let ex := (decpt - 1)%Z in
         let es := Str.of_Z (Z.abs ex) in
         substring 0 1 ds
         +:+ (if (1 <? nd)%nat then "." +:+ substring 1 (nd - 1) ds else "")
         +:+ "e" +:+ (if (ex <? 0)%Z then "-" else "+")
         +:+ Str.zeros (2 - String.length es) +:+ es)
  end.

(** [repr(v)], without escapes in strings. *)
Fixpoint value_repr (v : value) : string :=
  match v with
  | VNone => "None"
  | VStr s => "'" +:+ s +:+ "'"
  | VNum x => float_str x
  | VTuple l =>
      "(" +:+ Str.join ", " (map value_repr l)
      +:+ (if (length l =? 1)%nat then "," else "") +:+ ")"
  end.

(** [str(v)] *)
Definition value_str (v : value) : string :=
  match v with
  | VStr s => s
  | _ => value_repr v
  end.

(** Stand-ins for [np.nanmean] and [np.nanstd] (population deviation,
    numpy's default [ddof=0]): the entries that are not NaN are summed from
    left to right. numpy adds in another order (pairwise, in blocks), so on
    arrays whose sums round the last bits can differ from numpy's; where
    every partial sum is exact the order does not matter. *)
Definition not_nan (x : float) : bool := PrimFloat.eqb x x.

Definition mean_of (l : list float) : float :=
  (fold_left PrimFloat.add l 0 / Z_to_float (Z.of_nat (length l)))%float.

Definition nan_mean (a : ndarray) : float :=
  mean_of (List.filter not_nan (entries a)).

Definition nan_std (a : ndarray) : float :=
  let xs := List.filter not_nan (entries a) in
  let m := mean_of xs in
  PrimFloat.sqrt (mean_of (map (fun x => (x - m) * (x - m))%float xs)).

Definition channel (data : NData) (name : string) : res ndarray :=
  match signals data !! name with
  | Some a => inr a
  | None => inl (KeyError name)
  end.

Definition curve (data : NData) (x y : string) : res (ndarray * ndarray) :=
  let* xs := channel data x in
  let* ys := channel data y in
  inr (xs, ys).

Definition artist_name (a : artist) : string :=
  match a with
  | imshow _ _ _ _ _ cmap => "imshow:" +:+ cmap
  | colorbar _ => "colorbar"
  | plot _ _ _ => "plot"
  | xlabel s => "x:" +:+ s
  | ylabel s => "y:" +:+ s
  | yscale s => "yscale:" +:+ s
  | grid _ => "grid"
  end.

(** The "PNG" of a figure: the list of what was drawn on it. *)
Definition png (fig : figure) (pad_inches : option float) : res image :=
  inr ("PNG[" +:+ Str.join "; " (map artist_name (artists fig)) +:+ "]").

Definition collab (d : directory) (files : list (string * NData)) : Collab := {|
  glob := listing_glob d;
  Load := load_from files;
  float_of_str := float_of_decimal;
  str_other := value_str;
  format_f := format_fixed_point;
  nanmean := nan_mean;
  nanstd := nan_std;
  get_z := fun data _ _ => channel data "Z";
  get_map := fun data => channel data "LI_Demod_1_X";
  get_iz := fun data => curve data "Z rel (m)" "Current (A)";
  didv_scaled := fun data => curve data "Bias calc (V)" "LI Demod 1 X (A)";
  didv_normalized := fun data => curve data "Bias calc (V)" "LI Demod 1 X (A)";
  iv_raw := fun data => curve data "Bias calc (V)" "Current (A)";
  savefig := png;
  prs_save := fun _ _ => inr tt;
|}.

End Example.

(** ** Sample files *)

Module Samples.

Definition topo_header : gmap string value :=
  dict_display
    [("scan_pixels", VTuple [VNum 512; VNum 256]);
     ("scan_range", VTuple [VNum 100e-9; VNum 50e-9]);
     ("scan_dir", VStr "down");
     ("scan_angle", VStr "0.000E+0");
     ("bias>bias (v)", VStr "5.000E-1");
     ("z-controller>setpoint", VStr "1.000E-10");
     ("rec_time", VStr "12:30:00");
     ("rec_date", VStr "05.03.2024")].

Definition height : ndarray := Arr [2; 2] [1; 2; 3; 4]%float.

(** A topography without the lock-in channel. *)
Definition topo_0010 : NData := {|
  fname := "topo_0010.sxm";
  header := topo_header;
  signals := {[ "Z" := height ]};
|}.

(** A topography with the lock-in channel. *)
Definition lockin_0013 : NData := {|
  fname := "lockin_0013.sxm";
  header := topo_header;
  signals := <["LI_Demod_1_X" := height]> {[ "Z" := height ]};
|}.

(** A topography whose bias entry is not a number. *)
Definition garbled_0010 : NData := {|
  fname := "garbled_0010.sxm";
  header := <["bias>bias (v)" := VStr "n/a"]> topo_header;
  signals := {[ "Z" := height ]};
|}.

Definition sweep : ndarray := Arr [3] [0; 1; 2]%float.

Definition spectrum_header : gmap string value :=
  dict_display
    [("Bias>Bias (V)", VStr "5.000E-1");
     ("Z-Controller>Setpoint", VStr "1.000E-10");
     ("Bias Spectroscopy>Sweep Start (V)", VStr "-1.0");
     ("Bias Spectroscopy>Sweep End (V)", VStr "1.0");
     ("Bias Spectroscopy>Number of sweeps", VStr "1");
     ("Z Spectroscopy>Initial Z-offset (m)", VStr "0.0");
     ("Z Spectroscopy>Sweep distance (m)", VStr "1.000E-9");
     ("Z Spectroscopy>Number of sweeps", VStr "5");
     ("Comment01", VStr "");
     ("Saved Date", VStr "05.03.2024 12:30:00")].

(** A bias sweep. *)
Definition bias_0012 : NData := {|
  fname := "bias_0012.dat";
  header := spectrum_header;
  signals := dict_display [("Bias calc (V)", sweep); ("Current (A)", sweep);
                       ("LI Demod 1 X (A)", sweep)];
|}.

(** A Z sweep. *)
Definition zsweep_0014 : NData := {|
  fname := "zsweep_0014.dat";
  header := spectrum_header;
  signals := dict_display [("Z rel (m)", sweep); ("Current (A)", sweep)];
|}.

(** A grid spectroscopy. *)
Definition grid_0003 : NData := {|
  fname := "grid_0003.3ds";
  header := ∅;
  signals := ∅;
|}.

Definition files : list (string * NData) :=
  [("/data/topo_0010.sxm", topo_0010); ("/data/bias_0012.dat", bias_0012);
   ("/data/lockin_0013.sxm", lockin_0013); ("/data/zsweep_0014.dat", zsweep_0014);
   ("/data/grid_0003.3ds", grid_0003)].

Definition data_dir : Example.directory := {|
  Example.dir_path := "/data";
  Example.dir_names := ["grid_0003.3ds"; "topo_0010.sxm"; "bias_0012.dat";
                        "lockin_0013.sxm"; "zsweep_0014.dat"];
|}.

Definition lab : Collab := Example.collab data_dir files.

Definition renamed (name : string) (data : NData) : NData :=
  {| fname := name; header := header data; signals := signals data |}.

(** A directory that lists two scans numbered 10, the later name first. *)
Definition unsorted_dir : Example.directory := {|
  Example.dir_path := "/scans";
  Example.dir_names := ["b_0010.sxm"; "a_0010.sxm"];
|}.

Definition unsorted_lab : Collab :=
  Example.collab unsorted_dir
    [("/scans/b_0010.sxm", renamed "b_0010.sxm" topo_0010);
     ("/scans/a_0010.sxm", renamed "a_0010.sxm" topo_0010)].

(** A directory whose scan 10 has a bias entry that is not a number. *)
Definition garbled_dir : Example.directory := {|
  Example.dir_path := "/garbled";
  Example.dir_names := ["garbled_0010.sxm"; "topo_0011.sxm"];
|}.

(** A scan whose header is empty. *)
Definition nohdr_0010 : NData := {|
  fname := "nohdr_0010.sxm";
  header := ∅;
  signals := {[ "Z" := height ]};
|}.

(** A directory with a text file numbered 9, the scan without header
    numbered 10 and a good scan numbered 11. *)
Definition mixed_dir : Example.directory := {|
  Example.dir_path := "/mixed";
  Example.dir_names := ["notes_0009.txt"; "nohdr_0010.sxm"; "topo_0011.sxm"];
|}.

Definition mixed_lab : Collab :=
  Example.collab mixed_dir
    [("/mixed/nohdr_0010.sxm", nohdr_0010);
     ("/mixed/topo_0011.sxm", renamed "topo_0011.sxm" topo_0010)].

Definition mixed_run : DataToPPT := {|
  base_path := "/mixed/"; start_num := 9; end_num := 11;
  keyword := None; output_filename := "out.pptx";
|}.

(** The batch over the indices 10 and 11 of that directory. *)
Definition garbled_run : DataToPPT := {|
  base_path := "/garbled/"; start_num := 10; end_num := 11;
  keyword := None; output_filename := "out.pptx";
|}.

(** The batch over the indices 10 to 12 of [data_dir]. *)
Definition data_run : DataToPPT := {|
  base_path := "/data/"; start_num := 10; end_num := 12;
  keyword := None; output_filename := "out.pptx";
|}.

Definition garbled_lab : Collab :=
  Example.collab garbled_dir
    [("/garbled/garbled_0010.sxm", garbled_0010);
     ("/garbled/topo_0011.sxm", renamed "topo_0011.sxm" topo_0010)].

End Samples.

(** ** The two parameter branches of a point spectroscopy, as the
    extracted mapping shows them *)

(** Offset, sweep distance and Z sweep count, and no bias-sweep bounds. *)
Definition z_sweep_branch (data : NData) (params : gmap string value) : Prop :=
  is_Some (params !! "offset")
  /\ params !! "offset" = header data !! "Z Spectroscopy>Initial Z-offset (m)"
  /\ params !! "sweep_z" = header data !! "Z Spectroscopy>Sweep distance (m)"
  /\ params !! "sweep_num" = header data !! "Z Spectroscopy>Number of sweeps"
  /\ params !! "sweep_start" = None
  /\ params !! "sweep_end" = None.

(** Sweep start, sweep end and bias sweep count, and no Z-sweep entries. *)
Definition bias_sweep_branch (data : NData) (params : gmap string value) : Prop :=
  is_Some (params !! "sweep_start")
  /\ params !! "sweep_start" = header data !! "Bias Spectroscopy>Sweep Start (V)"
  /\ params !! "sweep_end" = header data !! "Bias Spectroscopy>Sweep End (V)"
  /\ params !! "sweep_num" = header data !! "Bias Spectroscopy>Number of sweeps"
  /\ params !! "offset" = None
  /\ params !! "sweep_z" = None.

(** The header entries each branch reads. *)
Definition z_sweep_keys : list string :=
  ["Bias>Bias (V)"; "Z-Controller>Setpoint"; "Bias Spectroscopy>Number of sweeps";
   "Z Spectroscopy>Initial Z-offset (m)"; "Z Spectroscopy>Sweep distance (m)";
   "Z Spectroscopy>Number of sweeps"; "Comment01"; "Saved Date"].

Definition bias_sweep_keys : list string :=
  ["Bias>Bias (V)"; "Z-Controller>Setpoint"; "Bias Spectroscopy>Sweep Start (V)";
   "Bias Spectroscopy>Sweep End (V)"; "Bias Spectroscopy>Number of sweeps";
   "Comment01"; "Saved Date"].

Definition has_keys {A} (d : gmap string A) (keys : list string) : Prop :=
  Forall (fun k => is_Some (d !! k)) keys.

(** The header entries of a topography that the extraction reads. *)
Definition sxm_keys : list string :=
  ["scan_pixels"; "scan_range"; "scan_dir"; "scan_angle"; "bias>bias (v)";
   "z-controller>setpoint"; "rec_time"; "rec_date"].

(** The record has pixel counts [(px, py)] and scan range [(rx, ry)]. *)
Definition scan_geometry (data : NData) (px py rx ry : float) : Prop :=
  exists pixels range,
    header data !! "scan_pixels" = Some (VTuple pixels)
    /\ pixels !! 0%nat = Some (VNum px) /\ pixels !! 1%nat = Some (VNum py)
    /\ header data !! "scan_range" = Some (VTuple range)
    /\ range !! 0%nat = Some (VNum rx) /\ range !! 1%nat = Some (VNum ry).

(** The figure of one colour-mapped topography panel (util.py 252-272):
    the map, its colour scale clipped at the 3-sigma limits, and the
    colour bar. *)
Definition sxm_figure (C : Collab) (z : ndarray) (origin : string) (aspect : value)
    (cmap : string) (powerlimits : option (Z * Z)) : figure :=
  Figure (5, 5)%float
         [imshow z origin (get_3sigma_limits C z).1 (get_3sigma_limits C z).2 aspect cmap;
          colorbar powerlimits].

(** The plotting collaborators do their part for a topography record. *)
Definition sxm_backend_ok (C : Collab) (data : NData) : Prop :=
  (exists z, get_z C data "subtract linear fit" "fwd" = inr z)
  /\ (exists dz, get_z C data "differentiate" "fwd" = inr dz)
  /\ ("LI_Demod_1_X" ∈ dom (signals data) -> exists m, get_map C data = inr m)
  /\ (forall fig pad, exists img, savefig C fig pad = inr img).

(** The record loaded for index [i], if the loader returns one. *)
Definition loaded (C : Collab) (self : DataToPPT) (i : Z) : option NData :=
  match (NanonisData C (base_path self) (FInt i) (keyword self)).2 with
  | inr data => Some data
  | inl _ => None
  end.


(** The title [add_slide] gives the slide of a record. *)
Definition title_of (data : NData) : string := "File: " +:+ fname data.

(** A statement on a slide that leaves its title alone. *)
Definition keeps_title {A} (m : on_slide A) : Prop :=
  forall s, slide_title (m s).1 = slide_title s.

(** "The lexicographically-first match": a match that no other match
    precedes in the order of strings. *)
Definition lexicographically_first (f : string) (matches : list string) : Prop :=
  f ∈ matches /\ forall m, m ∈ matches -> String.leb f m = true.

(** ** Vocabulary of the further properties *)

(** [s] is made of the character [c] only. *)
Fixpoint only (c : ascii) (s : string) : bool :=
  match s with
  | EmptyString => true
  | String a s' => Ascii.eqb a c && only c s'
  end.

(** The first of [keys], in reading order, that [d] does not hold. *)
Definition first_missing {A} (d : gmap string A) (keys : list string) : option string :=
  List.find (fun k => match d !! k with None => true | Some _ => false end) keys.

(** The header entries [get_dat_parameters] reads for a record. *)
Definition dat_keys (data : NData) : list string :=
  if bool_decide ("Z rel (m)" ∈ dom (signals data)) then z_sweep_keys else bias_sweep_keys.

(** The plotting collaborators do their part for a point spectroscopy. *)
Definition dat_backend_ok (C : Collab) (data : NData) : Prop :=
  ("Z rel (m)" ∈ dom (signals data) -> exists spec_z, get_iz C data = inr spec_z)
  /\ ("Z rel (m)" ∉ dom (signals data) ->
      (exists c, didv_scaled C data = inr c)
      /\ (exists c, didv_normalized C data = inr c)
      /\ (exists c, iv_raw C data = inr c))
  /\ (forall fig pad, exists img, savefig C fig pad = inr img).

(** The caption of a topography, from the numbers [float] gave and the
    header entries shown as they are (util.py 185-198). *)
Definition sxm_caption (C : Collab) (bias current rx ry : float) (direction : value)
    (angle : float) (scan_date scan_time : value) : string :=
  Str.join " "
    [str_other C (VNum bias) +:+ " V /";
     current_text C current;
     nl +:+ format_f C 0 (rx * 1e9) +:+ " x " +:+ format_f C 0 (ry * 1e9) +:+ " nm²";
     "(" +:+ to_str C direction +:+ ", " +:+ format_f C 1 angle +:+ "˚)";
     nl +:+ "(" +:+ to_str C scan_date +:+ "_" +:+ to_str C scan_time +:+ ")"].

(** The caption of a Z sweep (util.py 205-214). *)
Definition z_sweep_caption (C : Collab) (bias current : float) (saved_date : value)
    : string :=
  Str.join " "
    [str_other C (VNum bias) +:+ " V /";
     current_text C current;
     nl +:+ "(" +:+ to_str C saved_date +:+ ")"].

(** The caption of a bias sweep (util.py 216-226). *)
Definition bias_sweep_caption (C : Collab) (bias current sweep_start sweep_end : float)
    (sweep_num saved_date : value) : string :=
  Str.join " "
    [str_other C (VNum bias) +:+ " V /";
     current_text C current;
     nl +:+ str_other C (VNum sweep_start) +:+ " V to "
        +:+ str_other C (VNum sweep_end) +:+ " V (sweeps: "
        +:+ to_str C sweep_num +:+ ")";
     nl +:+ "(" +:+ to_str C saved_date +:+ ")"].

(** The line the batch loop prints for an index that matches no file
    (util.py 512, with the message of util.py 40 or 42). *)
Definition skip_line (self : DataToPPT) (i : Z) : string :=
  "Skipping number " +:+ Str.of_Z i +:+ ": "
  +:+ exn_str (no_file_found (FInt i) (keyword self)).

(** The row of pictures [add_slide] lays out for a topography or a point
    spectroscopy (util.py 434-455, 463-478): 3.2 inches wide, 1.5 inches
    from the top, at 0, 3.2 * 1.02 and 3.2 * 2.04 inches from the left. *)
Definition picture_row (imgs : list image) : list picture :=
  zip_with (fun img left => Picture img left (Inches 1.5) (Inches 3.2))
           imgs [Inches 0; Inches (0 + 3.2 * 1.02); Inches (0 + 3.2 * 2.04)].

(** The caption box of a slide (util.py 491-494). *)
Definition caption_box (text_top : Z) (info_text : string) : textbox :=
  TextBox (Inches 1) text_top (Inches 8) (Inches 0.5)
          (if String.eqb info_text "" then "No parameters available" else info_text).

(** Where the caption of a picture row goes (util.py 457, 480). *)
Definition row_text_top : Z := (Inches 1.5 + Inches 3.2 + Inches 0.2)%Z.

(** The figure of one curve of a point spectroscopy (util.py 343-346). *)
Definition curve_figure (xs ys : ndarray) (x_label y_label : string)
    (more : list artist) : figure :=
  Figure (5, 5)%float ([plot xs ys "k-"; xlabel x_label; ylabel y_label] ++ more)%list.

(** * Properties *)

(** ** Results *)

Lemma rbind_inr {A B} (r : res A) (k : A -> res B) b :
  rbind r k = inr b -> exists a, r = inr a /\ k a = inr b.
Proof. destruct r as [e|a]; simpl; [discriminate | eauto]. Qed.

Lemma getitem_inr {A} (d : gmap string A) k v :
  getitem d k = inr v -> d !! k = Some v.
Proof. unfold getitem. destruct (d !! k); congruence. Qed.

Lemma getitem_Some {A} (d : gmap string A) k v :
  d !! k = Some v -> getitem d k = inr v.
Proof. unfold getitem. intros ->. reflexivity. Qed.

(** Settle a decidable statement about concrete data by evaluation. *)
Ltac by_compute :=
  match goal with
  | |- ?P => apply (@bool_decide_unpack P _); vm_compute; exact I
  end.

(** Peel the successful steps off a chain of [let*]. *)
Ltac peel H :=
  repeat (let a := fresh "v" in
          let Ha := fresh "Hv" in
          apply rbind_inr in H as (a & Ha & H)).

(** ** Splitting strings *)

Lemma split_no_sep c s : Str.contains c s = false -> Str.split c s = [s].
Proof.
  induction s as [|a s IH]; simpl; [reflexivity|].
  destruct (Ascii.eqb a c); simpl; [discriminate|].
  intros H. rewrite (IH H). reflexivity.
Qed.

Lemma split_sep c a b :
  Str.contains c a = false ->
  Str.split c (a +:+ String c b) = a :: Str.split c b.
Proof.
  induction a as [|x a IH]; simpl.
  - intros _. rewrite Ascii.eqb_refl. reflexivity.
  - destruct (Ascii.eqb x c); simpl; [discriminate|].
    intros H. rewrite (IH H). reflexivity.
Qed.

(** A string of the shape [day.month.year] splits into its three fields. *)
Lemma split_dmy day month year :
  Str.contains "." day = false -> Str.contains "." month = false ->
  Str.contains "." year = false ->
  Str.split "." (day +:+ "." +:+ month +:+ "." +:+ year) = [day; month; year].
Proof.
  intros Hd Hm Hy.
  change (Str.split "." (day +:+ String "." (month +:+ String "." year))
          = [day; month; year]).
  rewrite (split_sep _ day), (split_sep _ month), (split_no_sep _ year); auto.
Qed.

Lemma append_String x (a b : string) : String x a +:+ b = String x (a +:+ b).
Proof. reflexivity. Qed.

Lemma append_assoc (a b c : string) : (a +:+ b) +:+ c = a +:+ (b +:+ c).
Proof.
  induction a as [|x a IH]; [reflexivity|].
  rewrite !append_String, IH. reflexivity.
Qed.

Lemma contains_app c a b :
  Str.contains c (a +:+ b) = Str.contains c a || Str.contains c b.
Proof.
  induction a as [|x a IH]; [reflexivity|].
  rewrite append_String. simpl. rewrite IH. apply orb_assoc.
Qed.

(** ** Date reformatting *)

(** The point-spectroscopy reformatter wants a date and a time: a bare
    day.month.year string comes back as it is. *)
Lemma dat_format_date_bare_date :
  dat_format_date (VStr "05.03.2024") = VStr "05.03.2024"
  /\ dat_format_date (VStr "05.03.2024") <> VStr "2024.03.05".
Proof. split; [reflexivity | discriminate]. Qed.

(** C4 (amended). The topography reformatter turns every string
    [day.month.year] (three dot-free fields) into [year.month.day], so
    "05.03.2024" becomes "2024.03.05", and hands back unchanged every value
    that is not a string of exactly three dot-separated fields. The
    point-spectroscopy reformatter turns [day.month.year time] into
    [year.month.day_time] and hands back unchanged every value that is not
    a string of exactly two space-separated fields whose first has exactly
    three dot-separated fields. Neither raises. *)
Theorem format_date_reformats :
  (forall day month year,
      Str.contains "." day = false -> Str.contains "." month = false ->
      Str.contains "." year = false ->
      sxm_format_date (VStr (day +:+ "." +:+ month +:+ "." +:+ year))
      = VStr (year +:+ "." +:+ month +:+ "." +:+ day))
  /\ sxm_format_date (VStr "05.03.2024") = VStr "2024.03.05"
  /\ (forall v,
        (forall s, v = VStr s -> length (Str.split "." s) <> 3%nat) ->
        sxm_format_date v = v)
  /\ (forall day month year time,
        Str.contains "." day = false -> Str.contains "." month = false ->
        Str.contains "." year = false ->
        Str.contains " " day = false -> Str.contains " " month = false ->
        Str.contains " " year = false -> Str.contains " " time = false ->
        dat_format_date (VStr (day +:+ "." +:+ month +:+ "." +:+ year +:+ " " +:+ time))
        = VStr (year +:+ "." +:+ month +:+ "." +:+ day +:+ "_" +:+ time))
  /\ (forall v,
        (forall s date_part time_part,
            v = VStr s -> Str.split " " s = [date_part; time_part] ->
            length (Str.split "." date_part) <> 3%nat) ->
        dat_format_date v = v).
Proof.
  split; [|split; [|split; [|split]]].
  - intros day month year Hd Hm Hy. unfold sxm_format_date.
    rewrite split_dmy by assumption. reflexivity.
  - reflexivity.
  - intros [|s|x|l] H; try reflexivity. unfold sxm_format_date.
    specialize (H s eq_refl).
    destruct (Str.split "." s) as [|a [|b [|c [|d l]]]]; try reflexivity.
    exfalso. apply H. reflexivity.
  - intros day month year time Hd Hm Hy Sd Sm Sy St. unfold dat_format_date.
    assert (Hsp : Str.split " " (day +:+ "." +:+ month +:+ "." +:+ year +:+ " " +:+ time)
                  = [day +:+ "." +:+ month +:+ "." +:+ year; time]).
    { change (day +:+ "." +:+ month +:+ "." +:+ year +:+ " " +:+ time)
        with (day +:+ String "." (month +:+ String "." (year +:+ String " " time))).
      replace (day +:+ String "." (month +:+ String "." (year +:+ String " " time)))
        with ((day +:+ "." +:+ month +:+ "." +:+ year) +:+ String " " time).
      - rewrite split_sep, (split_no_sep _ time) by
          (rewrite ?contains_app; simpl; rewrite ?contains_app; simpl;
           rewrite ?Sd, ?Sm, ?Sy, ?St; reflexivity).
        reflexivity.
      - rewrite !append_assoc. reflexivity. }
    rewrite Hsp, split_dmy by assumption. rewrite !append_assoc. reflexivity.
  - intros [|s|x|l] H; try reflexivity. unfold dat_format_date.
    destruct (Str.split " " s) as [|date_part [|time_part [|c l]]] eqn:Hs;
      try reflexivity.
    specialize (H s date_part time_part eq_refl Hs).
    destruct (Str.split "." date_part) as [|a [|b [|c [|d l]]]]; try reflexivity.
    exfalso. apply H. reflexivity.
Qed.

Lemma format_date_reformats_witness :
  sxm_format_date (VStr "31.12.1999") = VStr "1999.12.31"
  /\ sxm_format_date (VStr "2024-03-05") = VStr "2024-03-05"
  /\ dat_format_date (VStr "05.03.2024 12:30:00") = VStr "2024.03.05_12:30:00"
  /\ dat_format_date (VStr "05.03.2024") = VStr "05.03.2024".
Proof.
  destruct format_date_reformats as (H1 & _ & H3 & H4 & H5).
  split; [|split; [|split]].
  - apply (H1 "31" "12" "1999"); reflexivity.
  - apply H3. intros s [= <-]. vm_compute. discriminate.
  - apply (H4 "05" "03" "2024" "12:30:00"); reflexivity.
  - apply H5. intros s d t [= <-]. vm_compute. discriminate.
Defined.

(** ** Parameter extraction *)

(** Turn the successful lookups of a peeled chain into equations on the
    header and use them. *)
Ltac lookups :=
  repeat match goal with
         | H : getitem _ _ = inr _ |- _ => apply getitem_inr in H; rewrite ?H
         end.

(** Run a chain of lookups on the keys that [Hh] says are there. *)
Ltac feed_keys Hh :=
  repeat (let x := fresh "x" in
          let Hx := fresh "Hx" in
          apply Forall_cons_1 in Hh as [[x Hx] Hh];
          rewrite (getitem_Some _ _ _ Hx); simpl).

(** C5. A point-spectroscopy record whose parameters are extracted gets the
    Z-sweep entries (offset, sweep distance, Z sweep count) exactly when its
    signals contain "Z rel (m)", and the bias-sweep entries (sweep start,
    sweep end, sweep count) exactly when they do not; the extraction
    succeeds whenever the header holds the entries its branch reads. *)
Theorem get_dat_parameters_branch (data : NData) :
  (forall params, get_dat_parameters data = inr params ->
     ("Z rel (m)" ∈ dom (signals data) <-> z_sweep_branch data params)
     /\ ("Z rel (m)" ∉ dom (signals data) <-> bias_sweep_branch data params))
  /\ ("Z rel (m)" ∈ dom (signals data) -> has_keys (header data) z_sweep_keys ->
       exists params, get_dat_parameters data = inr params)
  /\ ("Z rel (m)" ∉ dom (signals data) -> has_keys (header data) bias_sweep_keys ->
       exists params, get_dat_parameters data = inr params).
Proof.
  split; [|split].
  - intros params H. unfold get_dat_parameters in H.
    destruct (bool_decide ("Z rel (m)" ∈ dom (signals data))) eqn:Hk;
      [apply bool_decide_eq_true in Hk | apply bool_decide_eq_false in Hk];
      peel H; injection H as Hp; subst params; lookups.
    + assert (Hz : z_sweep_branch data
                (dict_display
                   [("bias", v); ("current", v0); ("sweep_num", v1); ("offset", v2);
                    ("sweep_z", v3); ("sweep_num", v4); ("comment", v5);
                    ("saved_date", dat_format_date v6)])).
      { unfold z_sweep_branch. rewrite Hv2, Hv3, Hv4. repeat split. eexists. reflexivity. }
      split; split; auto.
      * intros Hn. contradiction.
      * intros [[x Hx] _]. discriminate Hx.
    + assert (Hb : bias_sweep_branch data
                (dict_display
                   [("bias", v); ("current", v0); ("sweep_start", v1);
                    ("sweep_end", v2); ("sweep_num", v3); ("comment", v4);
                    ("saved_date", dat_format_date v5)])).
      { unfold bias_sweep_branch. rewrite Hv1, Hv2, Hv3. repeat split. eexists. reflexivity. }
      split; split; auto.
      * intros Hin. contradiction.
      * intros [[x Hx] _]. discriminate Hx.
  - intros Hk Hh. unfold get_dat_parameters. rewrite (bool_decide_eq_true_2 _ Hk).
    unfold has_keys, z_sweep_keys in Hh.
    feed_keys Hh.
    eexists. reflexivity.
  - intros Hk Hh. unfold get_dat_parameters. rewrite (bool_decide_eq_false_2 _ Hk).
    unfold has_keys, bias_sweep_keys in Hh.
    feed_keys Hh.
    eexists. reflexivity.
Qed.

Lemma get_dat_parameters_branch_witness :
  (exists params, get_dat_parameters Samples.zsweep_0014 = inr params
                  /\ z_sweep_branch Samples.zsweep_0014 params)
  /\ (exists params, get_dat_parameters Samples.bias_0012 = inr params
                     /\ bias_sweep_branch Samples.bias_0012 params).
Proof.
  split.
  - destruct (get_dat_parameters_branch Samples.zsweep_0014) as (H1 & H2 & _).
    assert (Hk : "Z rel (m)" ∈ dom (signals Samples.zsweep_0014))
      by by_compute.
    destruct H2 as [params Hp]; [exact Hk | |].
    + repeat constructor; eexists; vm_compute; reflexivity.
    + exists params. split; [exact Hp | apply (H1 params Hp), Hk].
  - destruct (get_dat_parameters_branch Samples.bias_0012) as (H1 & _ & H3).
    assert (Hk : "Z rel (m)" ∉ dom (signals Samples.bias_0012))
      by by_compute.
    destruct H3 as [params Hp]; [exact Hk | |].
    + repeat constructor; eexists; vm_compute; reflexivity.
    + exists params. split; [exact Hp | apply (H1 params Hp), Hk].
Defined.

(** C10. For a Z-sweep record (signals contain "Z rel (m)") the extracted
    'sweep_num' is the header's 'Z Spectroscopy>Number of sweeps': the
    'Bias Spectroscopy>Number of sweeps' entry is read as well, and the
    value written later under the same key replaces it. *)
Theorem z_sweep_num_is_z_spectroscopy (data : NData) (params : gmap string value) :
  "Z rel (m)" ∈ dom (signals data) ->
  get_dat_parameters data = inr params ->
  exists z_count bias_count,
    header data !! "Z Spectroscopy>Number of sweeps" = Some z_count
    /\ header data !! "Bias Spectroscopy>Number of sweeps" = Some bias_count
    /\ params !! "sweep_num" = Some z_count.
Proof.
  intros Hk H. unfold get_dat_parameters in H.
  rewrite (bool_decide_eq_true_2 _ Hk) in H.
  peel H. injection H as Hp. subst params. lookups.
  exists v4, v1. repeat split; assumption.
Qed.

Lemma z_sweep_num_is_z_spectroscopy_witness :
  exists params,
    get_dat_parameters Samples.zsweep_0014 = inr params
    /\ header Samples.zsweep_0014 !! "Bias Spectroscopy>Number of sweeps" = Some (VStr "1")
    /\ params !! "sweep_num" = Some (VStr "5").
Proof.
  destruct (get_dat_parameters Samples.zsweep_0014) as [e|params] eqn:Hp;
    [vm_compute in Hp; discriminate Hp|].
  exists params. split; [reflexivity|]. split; [vm_compute; reflexivity|].
  destruct (z_sweep_num_is_z_spectroscopy Samples.zsweep_0014 params)
    as (z_count & bias_count & Hz & _ & Hs).
  - by_compute.
  - exact Hp.
  - rewrite Hs, <- Hz. vm_compute. reflexivity.
Defined.

(** ** Aspect ratio *)

Lemma getindex_num v i x :
  getindex v i = inr (VNum x) -> exists l, v = VTuple l /\ l !! i = Some (VNum x).
Proof.
  destruct v as [|s|y|l]; simpl; try discriminate.
  - destruct (Str.char_at i s); discriminate.
  - destruct (l !! i) as [w|] eqn:Hw; [|discriminate].
    intros [= ->]. eauto.
Qed.

Lemma truediv_inr a b c :
  truediv a b = inr c ->
  exists x y, a = VNum x /\ b = VNum y /\ PrimFloat.eqb y 0 = false /\ c = VNum (x / y).
Proof.
  destruct a as [|?|x|?], b as [|?|y|?]; simpl; try discriminate.
  destruct (PrimFloat.eqb y 0) eqn:Hy; [discriminate|].
  intros [= <-]. eauto 6.
Qed.

Lemma mul_inr a b c :
  mul a b = inr c -> exists x y, a = VNum x /\ b = VNum y /\ c = VNum (x * y).
Proof.
  destruct a as [|?|x|?], b as [|?|y|?]; simpl; try discriminate.
  intros [= <-]. eauto.
Qed.

Lemma aspect_example : ((512 / 256) * (50e-9 / 100e-9) = 1)%float.
Proof. reflexivity. Qed.

(** What the extraction gives on a record that has the eight entries, a
    geometry and nonzero divisors. *)
Lemma get_sxm_parameters_runs (data : NData) px py rx ry :
  has_keys (header data) sxm_keys ->
  scan_geometry data px py rx ry ->
  PrimFloat.eqb py 0 = false -> PrimFloat.eqb rx 0 = false ->
  exists params,
    get_sxm_parameters data = inr params
    /\ params !! "aspect_ratio" = Some (VNum ((px / py) * (ry / rx))).
Proof.
  intros Hh (pixels & range & Hp & Hp0 & Hp1 & Hr & Hr0 & Hr1) Hpy Hrx.
  unfold get_sxm_parameters, has_keys, sxm_keys in *.
  feed_keys Hh.
  rewrite Hp in Hx. injection Hx as <-.
  rewrite Hr in Hx0. injection Hx0 as <-.
  simpl. rewrite Hp0, Hp1. simpl. rewrite Hpy. simpl.
  rewrite Hr1, Hr0. simpl. rewrite Hrx. simpl.
  eexists. split; [reflexivity|]. apply lookup_insert_eq.
Qed.

(** C6. The aspect ratio extracted from a topography record with pixel
    counts (px, py) and scan range (rx, ry) is (px / py) * (ry / rx), and
    the extraction yields it whenever the header holds the entries read
    and py and rx are not zero; for pixels (512, 256) and range
    (100e-9, 50e-9) it is 1.0. *)
Theorem aspect_ratio_value (data : NData) :
  (forall params, get_sxm_parameters data = inr params ->
     exists px py rx ry,
       scan_geometry data px py rx ry
       /\ params !! "aspect_ratio" = Some (VNum ((px / py) * (ry / rx))))
  /\ (forall px py rx ry,
        has_keys (header data) sxm_keys -> scan_geometry data px py rx ry ->
        PrimFloat.eqb py 0 = false -> PrimFloat.eqb rx 0 = false ->
        exists params,
          get_sxm_parameters data = inr params
          /\ params !! "aspect_ratio" = Some (VNum ((px / py) * (ry / rx))))
  /\ (has_keys (header data) sxm_keys ->
       scan_geometry data 512 256 100e-9 50e-9 ->
       exists params,
         get_sxm_parameters data = inr params
         /\ params !! "aspect_ratio" = Some (VNum 1)).
Proof.
  split; [|split].
  - intros params H. unfold get_sxm_parameters in H. peel H.
    injection H as Hp. subst params.
    apply mul_inr in Hv13 as (p & r & -> & -> & ->).
    apply truediv_inr in Hv9 as (px & py & -> & -> & Hpy & [= ->]).
    apply truediv_inr in Hv12 as (ry & rx & -> & -> & Hrx & [= ->]).
    apply getindex_num in Hv7 as (lp & -> & Hp0).
    apply getindex_num in Hv8 as (lp' & [= <-] & Hp1).
    apply getindex_num in Hv10 as (lr & -> & Hr1).
    apply getindex_num in Hv11 as (lr' & [= <-] & Hr0).
    lookups. exists px, py, rx, ry. split.
    + exists lp, lr. repeat split; assumption.
    + apply lookup_insert_eq.
  - intros px py rx ry. apply get_sxm_parameters_runs.
  - intros Hh Hg.
    destruct (get_sxm_parameters_runs data _ _ _ _ Hh Hg eq_refl eq_refl)
      as (params & Hp & Ha).
    exists params. split; [exact Hp|]. rewrite Ha, aspect_example. reflexivity.
Qed.

Lemma aspect_ratio_value_witness :
  exists params,
    get_sxm_parameters Samples.topo_0010 = inr params
    /\ params !! "aspect_ratio" = Some (VNum 1).
Proof.
  apply (aspect_ratio_value Samples.topo_0010).
  - repeat constructor; eexists; vm_compute; reflexivity.
  - eexists _, _. repeat split; vm_compute; reflexivity.
Defined.

(** ** Colour-scale limits *)

Lemma SFopp_round_aux prec emax s m e l :
  SFopp (binary_round_aux prec emax s m e l)
  = binary_round_aux prec emax (negb s) m e l.
Proof.
  unfold binary_round_aux.
  destruct (shr_fexp prec emax m e l) as [mrs' e'].
  destruct (shr_fexp prec emax _ e' loc_Exact) as [mrs'' e''].
  destruct (shr_m mrs''); simpl; try reflexivity.
  destruct (Z.leb _ _); reflexivity.
Qed.

(** Rounding is symmetric, so the sign of a factor moves out of a product. *)
Lemma SFmul_opp_l prec emax x y :
  SFmul prec emax (SFopp x) y = SFopp (SFmul prec emax x y).
Proof.
  destruct x as [sx|sx| |sx mx ex], y as [sy|sy| |sy my ey]; simpl;
    try reflexivity; try (destruct sx, sy; reflexivity).
  rewrite SFopp_round_aux. destruct sx, sy; reflexivity.
Qed.

(** Adding the opposite is subtracting, bit for bit. *)
Lemma SFadd_opp_r prec emax x y :
  SFadd prec emax x (SFopp y) = SFsub prec emax x y.
Proof.
  destruct x as [sx|sx| |sx mx ex], y as [sy|sy| |sy my ey]; simpl;
    try reflexivity; try (destruct sx, sy; reflexivity).
Qed.

Lemma add_neg3_mul (mean sigma : float) :
  (mean + (-3) * sigma = mean - 3 * sigma)%float.
Proof.
  apply Prim2SF_inj.
  rewrite add_spec, sub_spec, !mul_spec.
  change (Prim2SF (-3)) with (SFopp (Prim2SF 3)).
  unfold SF64add, SF64sub, SF64mul.
  rewrite SFmul_opp_l. apply SFadd_opp_r.
Qed.

(** The lower limit, which the source writes [mean + (-3) * sigma], is
    [mean - 3 * sigma] bit for bit, whatever the two numbers that
    [np.nanmean] and [np.nanstd] returned. What these two compute from the
    array is numpy's floating-point arithmetic and is not settled here. *)
Lemma get_3sigma_limits_minus (C : Collab) (data : ndarray) :
  get_3sigma_limits C data
  = ((nanmean C data - 3 * nanstd C data)%float,
     (nanmean C data + 3 * nanstd C data)%float).
Proof. unfold get_3sigma_limits. rewrite add_neg3_mul. reflexivity. Qed.

(** ** Rendering of a topography *)

(** C8. When the renderer returns for a topography record, it returns the
    height map and its derivative, each drawn with its 3-sigma colour
    limits, followed by the lock-in map exactly when the signals contain
    "LI_Demod_1_X": three image buffers in that case, two otherwise. It
    does return when the parameters are extracted and the plotting
    collaborators do their part. *)
Theorem process_sxm_file_images (C : Collab) (data : NData) :
  (forall imgs, process_sxm_file C data = inr imgs ->
     exists params direction aspect z dz height deriv,
       let origin := if eq_str direction "down" then "upper" else "lower" in
       get_scan_parameters data = inr params
       /\ params !! "direction" = Some direction
       /\ params !! "aspect_ratio" = Some aspect
       /\ get_z C data "subtract linear fit" "fwd" = inr z
       /\ get_z C data "differentiate" "fwd" = inr dz
       /\ savefig C (sxm_figure C z origin aspect nanox None) (Some 0.01%float)
          = inr height
       /\ savefig C (sxm_figure C dz origin aspect nanox (Some (-3, 4)%Z)) (Some 0.01%float)
          = inr deriv
       /\ ("LI_Demod_1_X" ∈ dom (signals data) ->
           exists m lockin,
             get_map C data = inr m
             /\ savefig C (sxm_figure C m origin aspect bwr None) (Some 0.01%float)
                = inr lockin
             /\ imgs = [height; deriv; lockin])
       /\ ("LI_Demod_1_X" ∉ dom (signals data) -> imgs = [height; deriv]))
  /\ (forall params,
        get_scan_parameters data = inr params ->
        is_Some (params !! "direction") -> is_Some (params !! "aspect_ratio") ->
        sxm_backend_ok C data ->
        exists imgs,
          process_sxm_file C data = inr imgs
          /\ length imgs = if bool_decide ("LI_Demod_1_X" ∈ dom (signals data))
                           then 3%nat else 2%nat).
Proof.
  split.
  - intros imgs H. unfold process_sxm_file, get_3sigma_limits in H.
    cbv beta iota zeta in H. peel H.
    exists v, v1, v2, v0, v4, v3, v6. cbv zeta.
    apply getitem_inr in Hv1, Hv2, Hv5.
    assert (v5 = v2) as -> by congruence.
    repeat (split; [assumption || exact Hv3 || exact Hv6|]).
    destruct (bool_decide ("LI_Demod_1_X" ∈ dom (signals data))) eqn:Hk;
      [apply bool_decide_eq_true in Hk | apply bool_decide_eq_false in Hk].
    + peel H. injection H as Hi. subst imgs. apply getitem_inr in Hv8.
      assert (v7 = v2) as -> by congruence.
      split; [|intros Hn; contradiction].
      intros _. exists v5, v8. repeat split; [assumption | exact Hv9].
    + injection H as Hi. subst imgs.
      split; [intros Hin; contradiction | reflexivity].
  - intros params Hp [direction Hd] [aspect Ha] (Hz & Hdz & Hm & Hs).
    destruct Hz as [z Hz], Hdz as [dz Hdz].
    unfold process_sxm_file, get_3sigma_limits. cbv beta iota zeta.
    rewrite Hp, Hz, Hdz. simpl.
    rewrite (getitem_Some _ _ _ Hd), (getitem_Some _ _ _ Ha). simpl.
    destruct (Hs (Figure (5, 5)%float
                    [imshow z (if eq_str direction "down" then "upper" else "lower")
                       (nanmean C z + -3 * nanstd C z)%float
                       (nanmean C z + 3 * nanstd C z)%float aspect nanox;
                     colorbar None]) (Some 0.01%float)) as [h ->]. simpl.
    destruct (Hs (Figure (5, 5)%float
                    [imshow dz (if eq_str direction "down" then "upper" else "lower")
                       (nanmean C dz + -3 * nanstd C dz)%float
                       (nanmean C dz + 3 * nanstd C dz)%float aspect nanox;
                     colorbar (Some (-3, 4)%Z)]) (Some 0.01%float)) as [d ->]. simpl.
    destruct (bool_decide ("LI_Demod_1_X" ∈ dom (signals data))) eqn:Hk.
    + apply bool_decide_eq_true in Hk. destruct (Hm Hk) as [m ->]. simpl.
      destruct (Hs (Figure (5, 5)%float
                      [imshow m (if eq_str direction "down" then "upper" else "lower")
                         (nanmean C m + -3 * nanstd C m)%float
                         (nanmean C m + 3 * nanstd C m)%float aspect bwr;
                       colorbar None]) (Some 0.01%float)) as [l ->]. simpl.
      eexists. split; reflexivity.
    + eexists. split; reflexivity.
Qed.

Lemma process_sxm_file_images_witness :
  (exists imgs, process_sxm_file Samples.lab Samples.lockin_0013 = inr imgs
                /\ length imgs = 3%nat)
  /\ (exists imgs, process_sxm_file Samples.lab Samples.topo_0010 = inr imgs
                   /\ length imgs = 2%nat).
Proof.
  split.
  - destruct (process_sxm_file_images Samples.lab Samples.lockin_0013) as [H _].
    destruct (process_sxm_file Samples.lab Samples.lockin_0013) as [e|imgs] eqn:Hp;
      [vm_compute in Hp; discriminate Hp|].
    destruct (H imgs eq_refl) as (? & ? & ? & ? & ? & ? & ? & _ & _ & _ & _ & _ & _ & _ & Hin & _).
    destruct Hin as (m & lockin & _ & _ & ->); [by_compute|].
    eexists. split; reflexivity.
  - destruct (process_sxm_file_images Samples.lab Samples.topo_0010) as [_ H].
    assert (Hd : match get_scan_parameters Samples.topo_0010 with
                 | inr p => is_Some (p !! "direction") /\ is_Some (p !! "aspect_ratio")
                 | inl _ => False
                 end) by (vm_compute; split; eexists; reflexivity).
    destruct (get_scan_parameters Samples.topo_0010) as [e|params] eqn:Hp;
      [contradiction|].
    destruct Hd as [Hd Ha].
    destruct (H params eq_refl Hd Ha) as (imgs & Hi & Hl).
    + repeat split.
      * eexists. vm_compute. reflexivity.
      * eexists. vm_compute. reflexivity.
      * intros Hin. exfalso. revert Hin. by_compute.
      * intros fig pad. eexists. reflexivity.
    + exists imgs. split; [exact Hi | exact Hl].
Defined.

(** ** File resolution *)

Lemma number_str_4_digits n :
  (0 <= n < 10000)%Z -> String.length (number_str (FInt n)) = 4%nat.
Proof.
  intros Hn.
  assert (Hall : forallb (fun k => (String.length (number_str (FInt k)) =? 4)%nat)
                         (seqZ 0 10000) = true) by (vm_compute; reflexivity).
  rewrite forallb_forall in Hall.
  apply Nat.eqb_eq, Hall, list_elem_of_In, elem_of_seqZ. lia.
Qed.

Lemma warning_lists_all (matches : list string) m :
  m ∈ matches -> ("- " +:+ Path.basename m) ∈ multiple_warning matches.
Proof.
  intros Hm. unfold multiple_warning.
  apply elem_of_app. right. apply elem_of_app. left.
  apply list_elem_of_In, (in_map (fun f => "- " +:+ Path.basename f)), list_elem_of_In, Hm.
Qed.

(** Two scans numbered 10 listed as b, a: the resolver takes b, which is
    not the first of the two in the order of strings. *)
Lemma first_match_not_lexicographic :
  glob Samples.unsorted_lab (pattern "/scans/" (FInt 10) None)
  = ["/scans/b_0010.sxm"; "/scans/a_0010.sxm"]
  /\ (resolve Samples.unsorted_lab "/scans/" (FInt 10) None).2 = inr "/scans/b_0010.sxm"
  /\ ~ lexicographically_first "/scans/b_0010.sxm"
                               ["/scans/b_0010.sxm"; "/scans/a_0010.sxm"].
Proof.
  split; [reflexivity|]. split; [reflexivity|].
  intros [_ H]. specialize (H "/scans/a_0010.sxm").
  assert (Hin : "/scans/a_0010.sxm" ∈ ["/scans/b_0010.sxm"; "/scans/a_0010.sxm"])
    by (right; left).
  specialize (H Hin). vm_compute in H. discriminate H.
Qed.

(** C1 (amended). The loader globs for [*_NNNN.*], or [*keyword*_NNNN.*]
    when a keyword is given, under the base directory, NNNN being the index
    padded with zeros to four digits. If exactly one file matches, it
    resolves to that file's path and loads it; if none matches, it fails
    with a "No file found" value error; if two or more match, it resolves
    to the first match in the order the glob returns them and prints a
    warning that lists every match. *)
Theorem resolve_policy (C : Collab) (base : string) (n : Z) (kw : option string) :
  pattern base (FInt n) kw
  = Path.join base (match truthy kw with
                    | Some k => "*" +:+ k +:+ "*_"
                    | None => "*_"
                    end +:+ Str.zfill 4 (Str.of_Z n) +:+ ".*")
  /\ ((0 <= n < 10000)%Z -> String.length (Str.zfill 4 (Str.of_Z n)) = 4%nat)
  /\ (forall f,
        glob C (pattern base (FInt n) kw) = [f] ->
        resolve C base (FInt n) kw = ([], inr f)
        /\ NanonisData C base (FInt n) kw = ([], load_path C f))
  /\ (glob C (pattern base (FInt n) kw) = [] ->
       exists msg,
         resolve C base (FInt n) kw = ([], inl (ValueError msg))
         /\ NanonisData C base (FInt n) kw = ([], inl (ValueError msg))
         /\ Str.startswith msg "No file found" = true)
  /\ (forall f g rest,
        glob C (pattern base (FInt n) kw) = f :: g :: rest ->
        resolve C base (FInt n) kw = (multiple_warning (f :: g :: rest), inr f)
        /\ NanonisData C base (FInt n) kw
           = (multiple_warning (f :: g :: rest), load_path C f)
        /\ forall m, m ∈ f :: g :: rest ->
                     ("- " +:+ Path.basename m) ∈ multiple_warning (f :: g :: rest)).
Proof.
  split; [|split; [|split; [|split]]].
  - unfold pattern, number_str. destruct (truthy kw) as [k|]; [|reflexivity].
    rewrite !append_assoc. reflexivity.
  - apply number_str_4_digits.
  - intros f Hf. unfold NanonisData, resolve. rewrite Hf. split; reflexivity.
  - intros H0. unfold NanonisData, resolve. rewrite H0. unfold no_file_found.
    destruct (truthy kw) as [k|]; eexists; repeat split; reflexivity.
  - intros f g rest Hm. unfold NanonisData, resolve. rewrite Hm.
    repeat split. apply warning_lists_all.
Qed.

Lemma resolve_policy_witness :
  String.length (Str.zfill 4 (Str.of_Z 12)) = 4%nat
  /\ resolve Samples.lab "/data/" (FInt 12) (Some "bias") = ([], inr "/data/bias_0012.dat")
  /\ (exists msg, resolve Samples.lab "/data/" (FInt 11) None = ([], inl (ValueError msg)))
  /\ (resolve Samples.unsorted_lab "/scans/" (FInt 10) None).2 = inr "/scans/b_0010.sxm".
Proof.
  split; [|split; [|split]].
  - apply (resolve_policy Samples.lab "/data/" 12 None). lia.
  - apply (resolve_policy Samples.lab "/data/" 12 (Some "bias")). reflexivity.
  - destruct (resolve_policy Samples.lab "/data/" 11 None) as (_ & _ & _ & H & _).
    destruct H as (msg & H & _); [reflexivity|]. exists msg. exact H.
  - destruct (resolve_policy Samples.unsorted_lab "/scans/" 10 None) as (_ & _ & _ & _ & H).
    destruct (H "/scans/b_0010.sxm" "/scans/a_0010.sxm" []) as (-> & _); reflexivity.
Defined.

(** ** Slides *)

Lemma keeps_title_sret {A} (a : A) : keeps_title (sret a).
Proof. intros s. reflexivity. Qed.

Lemma keeps_title_lift {A} (r : res A) : keeps_title (lift r).
Proof. intros s. reflexivity. Qed.

Lemma keeps_title_add_picture img l t w : keeps_title (add_picture img l t w).
Proof. intros s. reflexivity. Qed.

Lemma keeps_title_add_textbox l t w h text : keeps_title (add_textbox l t w h text).
Proof. intros s. reflexivity. Qed.

Lemma keeps_title_sbind {A B} (m : on_slide A) (k : A -> on_slide B) :
  keeps_title m -> (forall a, keeps_title (k a)) -> keeps_title (sbind m k).
Proof.
  intros Hm Hk s. unfold sbind. specialize (Hm s).
  destruct (m s) as [s' [e|a]]; simpl in *; [exact Hm|].
  rewrite Hk. exact Hm.
Qed.

Create HintDb slides.

#[local] Hint Resolve keeps_title_sret keeps_title_lift keeps_title_add_picture
  keeps_title_add_textbox : slides.

(** Walk through a statement built from the operations above. *)
Ltac keeps :=
  repeat first
    [ apply keeps_title_sbind; [|intros ?]
    | match goal with
      | |- keeps_title (if ?b then _ else _) => destruct b
      | |- keeps_title (let '(_, _) := ?x in _) => destruct x
      end
    | solve [auto with slides] ].

Lemma keeps_title_place2 imgs base_size img_top width :
  keeps_title (place2 imgs base_size img_top width).
Proof. unfold place2. keeps. Qed.

Lemma keeps_title_place3 imgs base_size img_top width :
  keeps_title (place3 imgs base_size img_top width).
Proof. unfold place3. keeps. Qed.

#[local] Hint Resolve keeps_title_place2 keeps_title_place3 : slides.

Lemma keeps_title_fill_slide C data : keeps_title (fill_slide C data).
Proof. unfold fill_slide. keeps. Qed.

(** [add_slide] appends one slide, titled after the record, whether or not
    it raises afterwards. *)
Lemma add_slide_appends C prs data :
  exists s, add_slide C prs data = ((prs ++ [s])%list, (add_slide C prs data).2)
            /\ slide_title s = title_of data.
Proof.
  unfold add_slide.
  pose proof (keeps_title_fill_slide C data (Slide ("File: " +:+ fname data) [] [])) as Ht.
  destruct (fill_slide C data _) as [s r]. exists s. split; [reflexivity | exact Ht].
Qed.

(** ** The batch loop *)

(** What one index does to the presentation: nothing if the loader raises,
    one more slide, titled after the record, if it returns one. *)
Lemma try_body_slides C self i prs :
  exists out r,
    match loaded C self i with
    | None => try_body C self i prs = (prs, out, r) /\ exists e, r = inl e
    | Some data =>
        exists s, try_body C self i prs = ((prs ++ [s])%list, out, r)
                  /\ slide_title s = title_of data
    end.
Proof.
  unfold try_body, loaded.
  destruct (NanonisData C (base_path self) (FInt i) (keyword self)) as [out [e|data]];
    simpl.
  - exists out, (inl e). eauto.
  - destruct (add_slide_appends C prs data) as (s & Hs & Ht). rewrite Hs.
    eexists _, _, s. split; [reflexivity | exact Ht].
Qed.


(** The loop over a list of indices in two parts. *)
Lemma batch_loop_app C self done rest :
  forall prs,
    batch_loop C self (done ++ rest) prs
    = let '(prs1, out1, r1) := batch_loop C self done prs in
      match r1 with
      | inl e => (prs1, out1, inl e)
      | inr _ =>
          let '(prs2, out2, r2) := batch_loop C self rest prs1 in
          (prs2, (out1 ++ out2)%list, r2)
      end.
Proof.
  induction done as [|i done IH]; intros prs; simpl.
  - destruct (batch_loop C self rest prs) as [[p o] r]. reflexivity.
  - destruct (try_body C self i prs) as [[p o] r].
    assert (Hgo : forall printed,
               (let '(prs'', out', r') := batch_loop C self (done ++ rest) p in
                (prs'', (o ++ printed ++ out')%list, r'))
               = (let '(prs1, out1, r1) :=
                    let '(prs'', out', r') := batch_loop C self done p in
                    (prs'', (o ++ printed ++ out')%list, r') in
                  match r1 with
                  | inl e => (prs1, out1, inl e)
                  | inr _ =>
                      let '(prs2, out2, r2) := batch_loop C self rest prs1 in
                      (prs2, (out1 ++ out2)%list, r2)
                  end)).
    { intros printed. rewrite IH.
      destruct (batch_loop C self done p) as [[p1 o1] [e|u]]; [reflexivity|].
      destruct (batch_loop C self rest p1) as [[p2 o2] r2].
      rewrite <- !app_assoc. reflexivity. }
    destruct r as [e|u]; [destruct (is_ValueError e); [exact (Hgo [_]) | reflexivity]|].
    exact (Hgo []).
Qed.


Lemma batch_loop_skip C self i rest prs prs' out msg :
  try_body C self i prs = (prs', out, inl (ValueError msg)) ->
  batch_loop C self (i :: rest) prs
  = let '(p, o, r) := batch_loop C self rest prs' in
    (p, (out ++ ["Skipping number " +:+ Str.of_Z i +:+ ": " +:+ msg] ++ o)%list, r).
Proof. intros Hstep. simpl. rewrite Hstep. reflexivity. Qed.

Lemma batch_loop_raise C self i rest prs prs' out e :
  try_body C self i prs = (prs', out, inl e) -> is_ValueError e = false ->
  batch_loop C self (i :: rest) prs = (prs', out, inl e).
Proof. intros Hstep He. simpl. rewrite Hstep, He. reflexivity. Qed.

Lemma try_body_no_file C self i prs :
  glob C (pattern (base_path self) (FInt i) (keyword self)) = [] ->
  exists msg, try_body C self i prs = (prs, [], inl (ValueError msg)).
Proof.
  intros H0. unfold try_body, NanonisData, resolve. rewrite H0.
  unfold no_file_found. destruct (truthy (keyword self)); eexists; reflexivity.
Qed.


(** A scan whose bias entry does not read as a number fails with a value
    error while its caption is built; the loop prints it, goes on to the
    next index and the run ends normally. *)
Lemma malformed_number_is_skipped :
  (add_slide Samples.garbled_lab [] Samples.garbled_0010).2
  = inl (ValueError "could not convert string to float: 'n/a'")
  /\ (generate_ppt Samples.garbled_lab Samples.garbled_run []).2 = inr tt
  /\ (generate_ppt Samples.garbled_lab Samples.garbled_run []).1.2
     = ["Generating PPT for files 10 to 11...";
        "Processing file: garbled_0010.sxm";
        "Skipping number 10: could not convert string to float: 'n/a'";
        "Processing file: topo_0011.sxm";
        "PPT has been saved as /garbled/PPT/out.pptx"]
  /\ map slide_title (generate_ppt Samples.garbled_lab Samples.garbled_run []).1.1
     = ["File: garbled_0010.sxm"; "File: topo_0011.sxm"].
Proof. vm_compute. repeat split. Qed.

(** C2 (amended). In a batch run, the loader's "no matching file" and
    "unsupported extension" failures are value errors; a value error raised
    anywhere in the step of an index, by the loader or while the slide is
    filled, is caught by the loop, printed, and the loop goes on with the
    next index, the presentation staying as the step left it; an exception
    of any other kind is not caught: it ends the run at once, and it, not
    the result of saving, is how the run ends. *)
Theorem batch_error_policy (C : Collab) (self : DataToPPT) :
  (forall i prs,
      glob C (pattern (base_path self) (FInt i) (keyword self)) = [] ->
      exists msg, try_body C self i prs = (prs, [], inl (ValueError msg)))
  /\ (forall i prs f rest,
        glob C (pattern (base_path self) (FInt i) (keyword self)) = f :: rest ->
        file_handlers (Path.ext f) = None ->
        exists out,
          try_body C self i prs
          = (prs, out, inl (ValueError ("Unsupported file extension: " +:+ Path.ext f))))
  /\ (forall i rest prs prs' out msg,
        try_body C self i prs = (prs', out, inl (ValueError msg)) ->
        batch_loop C self (i :: rest) prs
        = let '(p, o, r) := batch_loop C self rest prs' in
          (p, (out ++ ["Skipping number " +:+ Str.of_Z i +:+ ": " +:+ msg] ++ o)%list, r))
  /\ (forall done i rest prs prs1 out1 prs2 out2 e,
        index_range self = (done ++ i :: rest)%list ->
        batch_loop C self done prs = (prs1, out1, inr tt) ->
        try_body C self i prs1 = (prs2, out2, inl e) ->
        is_ValueError e = false ->
        generate_ppt C self prs = (prs2, banner self :: (out1 ++ out2)%list, inl e)).
Proof.
  split; [|split; [|split]].
  - intros i prs. apply try_body_no_file.
  - intros i prs f rest Hm He. unfold try_body, NanonisData, resolve. rewrite Hm.
    simpl. unfold load_path. rewrite He. eexists. reflexivity.
  - intros i rest prs prs' out msg. apply batch_loop_skip.
  - intros done i rest prs prs1 out1 prs2 out2 e Hr Hdone Hstep He.
    unfold generate_ppt. rewrite Hr, batch_loop_app, Hdone.
    rewrite (batch_loop_raise _ _ _ _ _ _ _ _ Hstep He). reflexivity.
Qed.

Lemma batch_error_policy_witness :
  (exists msg, try_body Samples.lab Samples.data_run 11%Z [] = ([], [], inl (ValueError msg)))
  /\ (exists out, try_body Samples.mixed_lab Samples.mixed_run 9%Z []
                  = ([], out, inl (ValueError "Unsupported file extension: .txt")))
  /\ (batch_loop Samples.garbled_lab Samples.garbled_run [10%Z] []).2 = inr tt
  /\ (generate_ppt Samples.mixed_lab Samples.mixed_run []).2 = inl (KeyError "scan_pixels").
Proof.
  split; [|split; [|split]].
  - apply (batch_error_policy Samples.lab Samples.data_run). reflexivity.
  - destruct (batch_error_policy Samples.mixed_lab Samples.mixed_run) as (_ & H & _).
    apply (H 9%Z [] "/mixed/notes_0009.txt" []); reflexivity.
  - destruct (batch_error_policy Samples.garbled_lab Samples.garbled_run) as (_ & _ & H & _).
    destruct (try_body Samples.garbled_lab Samples.garbled_run 10%Z []) as [[p o] r] eqn:Hs.
    assert (Hr : r = inl (ValueError "could not convert string to float: 'n/a'"))
      by (change r with (p, o, r).2; rewrite <- Hs; reflexivity).
    subst r. rewrite (H 10%Z [] [] p o _ Hs). reflexivity.
  - destruct (batch_error_policy Samples.mixed_lab Samples.mixed_run) as (_ & _ & _ & H).
    destruct (batch_loop Samples.mixed_lab Samples.mixed_run [9%Z] []) as [[p1 o1] r1] eqn:H1.
    assert (Hr1 : r1 = inr tt)
      by (change r1 with (p1, o1, r1).2; rewrite <- H1; reflexivity).
    assert (Hp1 : p1 = [])
      by (change p1 with (p1, o1, r1).1.1; rewrite <- H1; reflexivity).
    subst r1 p1.
    destruct (try_body Samples.mixed_lab Samples.mixed_run 10%Z []) as [[p2 o2] r2] eqn:H2.
    assert (Hr2 : r2 = inl (KeyError "scan_pixels"))
      by (change r2 with (p2, o2, r2).2; rewrite <- H2; reflexivity).
    subst r2.
    rewrite (H [9%Z] 10%Z [11%Z] [] [] o1 p2 o2 _ eq_refl H1 H2 eq_refl). reflexivity.
Defined.

(** ** The report *)



(** C9, at a grid-spectroscopy record. The placeholder image is rendered,
    and the slide gets its title and its caption but no picture. *)
Theorem grid_slide_has_no_picture (C : Collab) (prs : presentation) (data : NData)
    (img : image) :
  Str.endswith (fname data) ".sxm" = false ->
  Str.endswith (fname data) ".dat" = false ->
  Str.endswith (fname data) ".3ds" = true ->
  process_3ds_file C data = inr img ->
  add_slide C prs data
  = ((prs ++ [Slide ("File: " +:+ fname data) []
                    [TextBox (Inches 1) (Inches 6) (Inches 8) (Inches 0.5)
                             "3DS file parameters"]])%list,
     inr tt).
Proof.
  intros Hsxm Hdat H3ds Himg.
  unfold add_slide, fill_slide, get_scan_parameters.
  rewrite Hsxm, Hdat, H3ds.
  unfold sbind, lift, sret, get_3ds_parameters. rewrite Himg. reflexivity.
Qed.

Lemma grid_slide_has_no_picture_witness :
  process_3ds_file Samples.lab Samples.grid_0003 = inr "PNG[]"
  /\ map slide_pictures (add_slide Samples.lab [] Samples.grid_0003).1 = [[]]
  /\ (add_slide Samples.lab [] Samples.grid_0003).2 = inr tt.
Proof.
  split; [reflexivity|].
  rewrite (grid_slide_has_no_picture Samples.lab [] Samples.grid_0003 "PNG[]");
    try reflexivity.
  split; reflexivity.
Defined.

(** The sibling branches do place what they render: the slide of a
    topography carries the images of [process_sxm_file], in order. *)
Lemma topography_slide_has_pictures :
  inr (concat (map (fun s => map pic_image (slide_pictures s))
                   (add_slide Samples.lab [] Samples.lockin_0013).1))
  = process_sxm_file Samples.lab Samples.lockin_0013.
Proof. vm_compute. reflexivity. Qed.


(** * Further properties *)

(** ** Strings and paths *)

Lemma split_cons c s : exists w ws, Str.split c s = w :: ws.
Proof.
  destruct s as [|a s]; simpl; [eauto|].
  destruct (Ascii.eqb a c); [eauto|].
  destruct (Str.split c s); eauto.
Qed.

(** Splitting around a separator splits both sides. *)
Lemma split_app_sep c a b :
  Str.split c (a +:+ String c b) = (Str.split c a ++ Str.split c b)%list.
Proof.
  induction a as [|x a IH].
  - simpl. rewrite Ascii.eqb_refl. reflexivity.
  - rewrite append_String. simpl. rewrite IH.
    destruct (Ascii.eqb x c); [reflexivity|].
    destruct (split_cons c a) as (w & ws & ->). reflexivity.
Qed.

(** Joining the fields with the separator gives the string back. *)
Lemma join_split c s : Str.join (String c EmptyString) (Str.split c s) = s.
Proof.
  induction s as [|a s IH]; [reflexivity|]. simpl.
  destruct (split_cons c s) as (w & ws & Hs). rewrite Hs in *.
  destruct (Ascii.eqb a c) eqn:Ha.
  - apply Ascii.eqb_eq in Ha as ->.
    change (Str.join (String c EmptyString) (EmptyString :: w :: ws))
      with (String c (Str.join (String c EmptyString) (w :: ws))).
    rewrite IH. reflexivity.
  - destruct ws; simpl in *; rewrite <- IH; reflexivity.
Qed.

(** No field holds the separator. *)
Lemma split_fields_free c s :
  Forall (fun w => Str.contains c w = false) (Str.split c s).
Proof.
  induction s as [|a s IH]; simpl; [repeat constructor|].
  destruct (Ascii.eqb a c) eqn:Ha; [constructor; [reflexivity | exact IH]|].
  destruct (Str.split c s) as [|w ws]; [repeat constructor; simpl; rewrite Ha; reflexivity|].
  apply Forall_cons_1 in IH as [Hw Hws]. constructor; [|exact Hws].
  simpl. rewrite Ha. exact Hw.
Qed.

Lemma only_fields c s :
  forallb (String.eqb EmptyString) (Str.split c s) = only c s.
Proof.
  induction s as [|a s IH]; [reflexivity|]. simpl.
  destruct (Ascii.eqb a c); simpl; [exact IH|].
  destruct (Str.split c s); reflexivity.
Qed.

(** A string that splits into three fields is the three fields joined, and
    none of them holds the separator. *)
Lemma split_three c s x y z :
  Str.split c s = [x; y; z] ->
  s = x +:+ String c (y +:+ String c z)
  /\ Str.contains c x = false /\ Str.contains c y = false /\ Str.contains c z = false.
Proof.
  intros Hs. pose proof (join_split c s) as Hj. pose proof (split_fields_free c s) as Hf.
  rewrite Hs in Hj, Hf.
  apply Forall_cons_1 in Hf as [Hx Hf]. apply Forall_cons_1 in Hf as [Hy Hf].
  apply Forall_cons_1 in Hf as [Hz _].
  split; [symmetry; exact Hj | auto].
Qed.

(** ** The date reformatters, applied twice *)

(** X1. The topography reformatter undoes itself: applied to a date it has
    already reformatted it gives the day.month.year string back, and so it
    is the identity when applied twice to any value. *)
Theorem sxm_format_date_involutive (v : value) :
  sxm_format_date (sxm_format_date v) = v.
Proof.
  destruct v as [|s|x|l]; try reflexivity.
  unfold sxm_format_date at 2.
  destruct (Str.split "." s) as [|day [|month [|year [|w ws]]]] eqn:Hs;
    try (unfold sxm_format_date; rewrite Hs; reflexivity).
  apply split_three in Hs as (-> & Hd & Hm & Hy).
  unfold sxm_format_date. rewrite split_dmy by assumption. reflexivity.
Qed.

(** X2. The point-spectroscopy reformatter leaves its own results alone:
    a reformatted "year.month.day_time" has no space left, so applying the
    reformatter again changes nothing. *)
Theorem dat_format_date_idempotent (v : value) :
  dat_format_date (dat_format_date v) = dat_format_date v.
Proof.
  destruct v as [|s|x|l]; try reflexivity.
  unfold dat_format_date at 2 3.
  destruct (Str.split " " s) as [|date_part [|time_part [|w ws]]] eqn:Hs;
    try (unfold dat_format_date; rewrite Hs; reflexivity).
  destruct (Str.split "." date_part) as [|day [|month [|year [|w ws]]]] eqn:Hd;
    try (unfold dat_format_date; rewrite Hs, ?Hd; reflexivity).
  pose proof (split_fields_free " " s) as Hf. rewrite Hs in Hf.
  apply Forall_cons_1 in Hf as [Hdate Hf]. apply Forall_cons_1 in Hf as [Htime _].
  apply split_three in Hd as (-> & _).
  repeat (rewrite contains_app in Hdate; simpl in Hdate).
  apply orb_false_elim in Hdate as [Sd Hdate].
  apply orb_false_elim in Hdate as [Sm Sy].
  unfold dat_format_date.
  rewrite split_no_sep; [reflexivity|].
  repeat (rewrite contains_app; simpl).
  rewrite Sd, Sm, Sy, Htime. reflexivity.
Qed.

(** ** Extensions *)

Lemma basename_in_dir dir name :
  Str.contains "/" name = false ->
  Path.basename (dir +:+ "/" +:+ name) = name.
Proof.
  intros Hn. unfold Path.basename.
  change (dir +:+ "/" +:+ name) with (dir +:+ String "/" name).
  rewrite split_app_sep, (split_no_sep _ name Hn). apply last_last.
Qed.

(** The extension of [stem.e]: [.e], unless the stem is made of dots. *)
Lemma ext_of_stem dir stem e :
  Str.contains "/" stem = false -> Str.contains "/" e = false ->
  Str.contains "." e = false ->
  Path.ext (dir +:+ "/" +:+ stem +:+ "." +:+ e)
  = if only "." stem then EmptyString else "." +:+ e.
Proof.
  intros Hs He Hd. unfold Path.ext.
  rewrite basename_in_dir
    by (repeat (rewrite contains_app; simpl); rewrite Hs, He; reflexivity).
  change (stem +:+ "." +:+ e) with (stem +:+ String "." e).
  rewrite split_app_sep, (split_no_sep _ e Hd).
  destruct (split_cons "." stem) as (w & ws & Hw). rewrite Hw.
  assert (Hrl : removelast ((w :: ws) ++ [e]) = w :: ws) by apply removelast_last.
  assert (Hl : List.last ((w :: ws) ++ [e]) EmptyString = e) by apply last_last.
  rewrite <- Hw in Hrl at 2. rewrite <- only_fields, <- Hrl, Hl.
  destruct ws; reflexivity.
Qed.

(** X3. A file [dir/stem.e] (no slash in [stem] and [e], no dot in [e]) is
    handed to the parser of its extension when [.e] is exactly .sxm, .dat
    or .3ds, and refused with "Unsupported file extension: .e" otherwise;
    a name whose stem is made of dots only, like ".sxm", has no extension
    and is refused. *)
Theorem load_path_by_extension (C : Collab) (dir stem e : string) :
  Str.contains "/" stem = false -> Str.contains "/" e = false ->
  Str.contains "." e = false ->
  let filepath := dir +:+ "/" +:+ stem +:+ "." +:+ e in
  load_path C filepath
  = if only "." stem
    then inl (ValueError "Unsupported file extension: ")
    else if String.eqb e "sxm" then Load C Load_sxm filepath
    else if String.eqb e "dat" then Load C Load_dat filepath
    else if String.eqb e "3ds" then Load C Load_3ds filepath
    else inl (ValueError ("Unsupported file extension: ." +:+ e)).
Proof.
  intros Hs He Hd filepath. unfold load_path, filepath.
  rewrite ext_of_stem by assumption.
  destruct (only "." stem); [reflexivity|].
  unfold file_handlers.
  change ("." +:+ e) with (String "." e). simpl.
  destruct (String.eqb e "sxm"); [reflexivity|].
  destruct (String.eqb e "dat"); [reflexivity|].
  destruct (String.eqb e "3ds"); reflexivity.
Qed.

Lemma load_path_by_extension_witness :
  load_path Samples.lab "/data/topo_0010.sxm" = inr Samples.topo_0010
  /\ load_path Samples.lab "/data/notes_0009.TXT"
     = inl (ValueError "Unsupported file extension: .TXT")
  /\ load_path Samples.lab "/data/.sxm" = inl (ValueError "Unsupported file extension: ").
Proof.
  split; [|split].
  - apply (load_path_by_extension Samples.lab "/data" "topo_0010" "sxm"); reflexivity.
  - apply (load_path_by_extension Samples.lab "/data" "notes_0009" "TXT"); reflexivity.
  - apply (load_path_by_extension Samples.lab "/data" "" "sxm"); reflexivity.
Defined.

(** ** Index padding and paths *)

Lemma length_append (a b : string) :
  String.length (a +:+ b) = (String.length a + String.length b)%nat.
Proof.
  induction a as [|x a IH]; [reflexivity|].
  rewrite append_String. simpl. rewrite IH. reflexivity.
Qed.

Lemma len_append (a b : string) : Str.len (a +:+ b) = (Str.len a + Str.len b)%nat.
Proof.
  induction a as [|x a IH]; [reflexivity|].
  rewrite append_String. simpl. rewrite IH. destruct (Str.continuation x); reflexivity.
Qed.

Lemma len_zeros n : Str.len (Str.zeros n) = n.
Proof. induction n as [|n IH]; simpl; [reflexivity | rewrite IH; reflexivity]. Qed.

(** Padding never cuts: the result has the width asked for, or the length
    of the argument when that is longer. *)
Lemma len_zfill (width : nat) (s : string) :
  Str.len (Str.zfill width s) = Nat.max width (Str.len s).
Proof.
  unfold Str.zfill. destruct (width <=? Str.len s)%nat eqn:Hw.
  - apply Nat.leb_le in Hw. lia.
  - apply Nat.leb_gt in Hw.
    destruct s as [|c r]; [simpl; rewrite len_zeros; simpl in Hw; lia|].
    destruct (Ascii.eqb c "+") eqn:Hp; [apply Ascii.eqb_eq in Hp; subst c|];
      [|destruct (Ascii.eqb c "-") eqn:Hm; [apply Ascii.eqb_eq in Hm; subst c|]];
      simpl in *; rewrite ?len_append, ?len_zeros; simpl;
      try destruct (Str.continuation c); lia.
Qed.

(** The decimal digits of a number below [10^k] are at most [k]. *)
Lemma of_lu_bound l :
  (DecimalPos.Unsigned.of_lu l < 10 ^ N.of_nat (Decimal.nb_digits l))%N.
Proof.
  induction l as [|l IH|l IH|l IH|l IH|l IH|l IH|l IH|l IH|l IH|l IH].
  { vm_compute. reflexivity. }
  all: rewrite DecimalPos.Unsigned.of_lu_eqn;
    unfold DecimalPos.Unsigned.hd, DecimalPos.Unsigned.tl;
    cbn [Decimal.nb_digits]; rewrite Nat2N.inj_succ, N.pow_succ_r'; lia.
Qed.

Lemma digits_of_pos p : (1000 <= Z.pos p)%Z -> (4 <= Decimal.nb_digits (Pos.to_uint p))%nat.
Proof.
  intros Hp. pose proof (DecimalPos.Unsigned.of_to p) as Ho.
  rewrite DecimalPos.Unsigned.of_uint_alt in Ho.
  pose proof (of_lu_bound (Decimal.rev (Pos.to_uint p))) as Hb.
  rewrite Ho, DecimalFacts.nb_digits_rev in Hb.
  destruct (Nat.le_gt_cases 4 (Decimal.nb_digits (Pos.to_uint p))) as [Hle|Hgt];
    [exact Hle|].
  exfalso.
  assert (Hpow : (10 ^ N.of_nat (Decimal.nb_digits (Pos.to_uint p)) <= 10 ^ 3)%N)
    by (apply N.pow_le_mono_r; lia).
  change (10 ^ 3)%N with 1000%N in Hpow. lia.
Qed.

(** A text of one-byte characters has as many characters as bytes. *)
Lemma len_le_length s : (Str.len s <= String.length s)%nat.
Proof. induction s as [|c r IH]; simpl; [lia|]. destruct (Str.continuation c); lia. Qed.

Lemma plain_String c r :
  Str.len (String c r) = String.length (String c r) ->
  Str.continuation c = false /\ Str.len r = String.length r.
Proof.
  simpl. pose proof (len_le_length r) as Hle.
  destruct (Str.continuation c); [lia|]. intros [= ->]. split; reflexivity.
Qed.

Lemma plain_append a b :
  Str.len a = String.length a -> Str.len b = String.length b ->
  Str.len (a +:+ b) = String.length (a +:+ b).
Proof. intros Ha Hb. rewrite len_append, length_append, Ha, Hb. reflexivity. Qed.

Lemma plain_zeros n : Str.len (Str.zeros n) = String.length (Str.zeros n).
Proof. induction n as [|n IH]; simpl; [reflexivity | rewrite IH; reflexivity]. Qed.

Lemma plain_zfill width s :
  Str.len s = String.length s ->
  Str.len (Str.zfill width s) = String.length (Str.zfill width s).
Proof.
  intros Hs. unfold Str.zfill. destruct (width <=? Str.len s)%nat; [exact Hs|].
  destruct s as [|c r]; [apply plain_zeros|].
  destruct (plain_String c r Hs) as [Hc Hr].
  destruct (Ascii.eqb c "+" || Ascii.eqb c "-").
  - simpl. rewrite Hc. f_equal. apply plain_append; [apply plain_zeros | exact Hr].
  - apply plain_append; [apply plain_zeros | exact Hs].
Qed.

(** The decimal text of a number is made of one-byte characters. *)
Lemma len_string_of_uint d :
  Str.len (NilEmpty.string_of_uint d) = Decimal.nb_digits d
  /\ String.length (NilEmpty.string_of_uint d) = Decimal.nb_digits d.
Proof. induction d; simpl; try destruct IHd as [-> ->]; split; reflexivity. Qed.

Lemma len_of_Z n : Str.len (Str.of_Z n) = String.length (Str.of_Z n).
Proof.
  unfold Str.of_Z. destruct n as [|p|p]; [reflexivity| |]; simpl;
    destruct (Pos.to_uint p) eqn:Hd; simpl;
    try (destruct (len_string_of_uint u) as [-> ->]); reflexivity.
Qed.

Lemma length_of_Z_large n : (1000 <= n)%Z -> (4 <= String.length (Str.of_Z n))%nat.
Proof.
  intros Hn. destruct n as [|p|p]; try lia.
  pose proof (digits_of_pos p Hn) as Hd. unfold Str.of_Z. simpl.
  destruct (Pos.to_uint p) eqn:Hu; simpl in *; try lia;
    destruct (len_string_of_uint u) as [_ ->]; lia.
Qed.

(** X4. The index is padded, never cut. For an integer index the text
    that goes into the glob pattern has four characters or as many as the
    decimal text of the index when that is longer: an index of 1000 or
    more goes in whole, one from 0 to 999 gets zeros in front. A text
    index is padded to four characters (not bytes) in the same way. *)
Theorem number_str_pads (n : Z) (s base : string) :
  String.length (number_str (FInt n)) = Nat.max 4 (String.length (Str.of_Z n))
  /\ ((1000 <= n)%Z ->
      number_str (FInt n) = Str.of_Z n
      /\ pattern base (FInt n) None = Path.join base ("*_" +:+ Str.of_Z n +:+ ".*"))
  /\ ((0 <= n < 1000)%Z ->
      number_str (FInt n)
      = Str.zeros (4 - String.length (Str.of_Z n)) +:+ Str.of_Z n)
  /\ Str.len (number_str (FStr s)) = Nat.max 4 (Str.len s).
Proof.
  assert (Hlen : String.length (number_str (FInt n))
                 = Nat.max 4 (String.length (Str.of_Z n))).
  { unfold number_str. rewrite <- (plain_zfill 4 (Str.of_Z n) (len_of_Z n)).
    rewrite len_zfill, len_of_Z. reflexivity. }
  assert (Hbig : (1000 <= n)%Z -> number_str (FInt n) = Str.of_Z n).
  { intros Hn. unfold number_str, Str.zfill. rewrite len_of_Z.
    pose proof (length_of_Z_large n Hn) as Hl. apply Nat.leb_le in Hl.
    rewrite Hl. reflexivity. }
  split; [exact Hlen|]. split; [|split].
  - intros Hn. split; [exact (Hbig Hn)|]. unfold pattern. simpl. rewrite (Hbig Hn).
    reflexivity.
  - intros Hn.
    assert (Hall : forallb (fun k => String.eqb (number_str (FInt k))
                                       (Str.zeros (4 - String.length (Str.of_Z k))
                                        +:+ Str.of_Z k))
                           (seqZ 0 1000) = true) by (vm_compute; reflexivity).
    rewrite forallb_forall in Hall.
    apply String.eqb_eq, Hall, list_elem_of_In, elem_of_seqZ. lia.
  - apply len_zfill.
Qed.

Lemma number_str_pads_witness :
  number_str (FInt 12345) = "12345"
  /\ number_str (FInt 7) = "0007"
  /\ pattern "/data" (FInt 12345) None = "/data/*_12345.*".
Proof.
  destruct (number_str_pads 12345 "" "/data") as (_ & Hbig & _).
  destruct (number_str_pads 7 "" "/data") as (_ & _ & Hsmall & _).
  destruct Hbig as [Hn Hp]; [lia|].
  split; [rewrite Hn; reflexivity|]. split.
  - rewrite Hsmall by lia. reflexivity.
  - rewrite Hp. reflexivity.
Defined.



(** ** Errors of the parameter extraction *)

Lemma rbind_inl {A B} (r : res A) (k : A -> res B) e :
  rbind r k = inl e -> r = inl e \/ exists a, r = inr a /\ k a = inl e.
Proof. destruct r as [e'|a]; simpl; [intros [= ->]; auto | eauto]. Qed.

Lemma getitem_inl {A} (d : gmap string A) k e :
  getitem d k = inl e -> e = KeyError k /\ d !! k = None.
Proof. unfold getitem. destruct (d !! k); [discriminate|]. intros [= <-]. auto. Qed.

Lemma getindex_inl v i e : getindex v i = inl e -> is_ValueError e = false.
Proof.
  destruct v as [|s|x|l]; simpl; try (intros [= <-]; reflexivity).
  - destruct (Str.char_at i s); [discriminate|]. intros [= <-]. reflexivity.
  - destruct (l !! i); [discriminate|]. intros [= <-]. reflexivity.
Qed.

Lemma truediv_inl a b e : truediv a b = inl e -> is_ValueError e = false.
Proof.
  destruct a, b; simpl; try (intros [= <-]; reflexivity).
  destruct (PrimFloat.eqb _ 0); [|discriminate]. intros [= <-]. reflexivity.
Qed.

Lemma mul_inl a b e : mul a b = inl e -> is_ValueError e = false.
Proof. destruct a, b; simpl; try discriminate; intros [= <-]; reflexivity. Qed.

(** Follow a failing chain of [let*] down to the step that failed. *)
Ltac blame H :=
  repeat (apply rbind_inl in H as [H | (? & _ & H)]);
  first [ apply getitem_inl in H as [-> _]; reflexivity
        | apply getindex_inl in H; exact H
        | apply truediv_inl in H; exact H
        | apply mul_inl in H; exact H
        | discriminate H ].

Lemma get_sxm_parameters_inl data e :
  get_sxm_parameters data = inl e -> is_ValueError e = false.
Proof. unfold get_sxm_parameters. intros H. blame H. Qed.

(** The lookups of the point-spectroscopy extraction, one after the other. *)
Lemma get_dat_parameters_first_missing data :
  match first_missing (header data) (dat_keys data) with
  | Some k => get_dat_parameters data = inl (KeyError k)
  | None => exists params, get_dat_parameters data = inr params
  end.
Proof.
  unfold get_dat_parameters, dat_keys, first_missing, getitem.
  destruct (bool_decide ("Z rel (m)" ∈ dom (signals data)));
    unfold z_sweep_keys, bias_sweep_keys; simpl;
    repeat match goal with
           | |- context [header data !! ?k] =>
               destruct (header data !! k); simpl; [|reflexivity]
           end;
    eexists; reflexivity.
Qed.

Lemma get_sxm_parameters_first_missing data k :
  first_missing (header data) sxm_keys = Some k ->
  get_sxm_parameters data = inl (KeyError k).
Proof.
  unfold get_sxm_parameters, sxm_keys, first_missing, getitem. simpl.
  repeat match goal with
         | |- context [header data !! ?k] =>
             destruct (header data !! k); simpl; [|intros [= <-]; reflexivity]
         end.
  discriminate.
Qed.

(** X6. The parameter extraction raises a value error exactly for a file
    name that ends in none of .sxm, .dat and .3ds, with the text
    "Unsupported file type: <name>"; whatever goes wrong inside the
    extraction of a recognised file is of another kind. *)
Theorem get_scan_parameters_value_error (data : NData) (msg : string) :
  get_scan_parameters data = inl (ValueError msg)
  <-> Str.endswith (fname data) ".sxm" = false
      /\ Str.endswith (fname data) ".dat" = false
      /\ Str.endswith (fname data) ".3ds" = false
      /\ msg = "Unsupported file type: " +:+ fname data.
Proof.
  unfold get_scan_parameters.
  destruct (Str.endswith (fname data) ".sxm").
  { split; [|intros (H & _); discriminate H].
    intros H. apply get_sxm_parameters_inl in H. discriminate H. }
  destruct (Str.endswith (fname data) ".dat").
  { split; [|intros (_ & H & _); discriminate H].
    intros H. pose proof (get_dat_parameters_first_missing data) as Hm.
    destruct (first_missing (header data) (dat_keys data));
      [rewrite Hm in H | destruct Hm as [p Hp]; rewrite Hp in H]; discriminate H. }
  destruct (Str.endswith (fname data) ".3ds").
  { split; [discriminate | intros (_ & _ & H & _); discriminate H]. }
  split; [intros [= <-]; auto | intros (_ & _ & _ & ->); reflexivity].
Qed.


Lemma get_scan_parameters_value_error_witness :
  get_scan_parameters (Samples.renamed "notes.txt" Samples.topo_0010)
  = inl (ValueError "Unsupported file type: notes.txt").
Proof.
  apply (get_scan_parameters_value_error (Samples.renamed "notes.txt" Samples.topo_0010)).
  repeat split; reflexivity.
Defined.

(** X7. A point-spectroscopy extraction fails exactly when the header
    lacks one of the entries its branch reads, and then with the key error
    of the first such entry in reading order; a topography extraction
    whose header lacks an entry fails with the key error of the first one
    missing. *)
Theorem missing_header_entry (data : NData) :
  (forall e, get_dat_parameters data = inl e
             <-> exists k, first_missing (header data) (dat_keys data) = Some k
                           /\ e = KeyError k)
  /\ (forall k, first_missing (header data) sxm_keys = Some k ->
                get_sxm_parameters data = inl (KeyError k)).
Proof.
  split; [|apply get_sxm_parameters_first_missing].
  intros e. pose proof (get_dat_parameters_first_missing data) as Hm.
  destruct (first_missing (header data) (dat_keys data)) as [k|].
  - rewrite Hm. split; [intros [= <-]; eauto | intros (k' & [= <-] & ->); reflexivity].
  - destruct Hm as [p ->]. split; [discriminate | intros (k & Hk & _); discriminate Hk].
Qed.

Lemma missing_header_entry_witness :
  get_sxm_parameters Samples.nohdr_0010 = inl (KeyError "scan_pixels")
  /\ get_dat_parameters (Samples.renamed "bare_0001.dat" Samples.nohdr_0010)
     = inl (KeyError "Bias>Bias (V)").
Proof.
  split.
  - apply (missing_header_entry Samples.nohdr_0010). reflexivity.
  - apply (missing_header_entry (Samples.renamed "bare_0001.dat" Samples.nohdr_0010)).
    exists "Bias>Bias (V)". split; reflexivity.
Defined.

Lemma get_scan_parameters_inl data e :
  Str.endswith (fname data) ".sxm" || Str.endswith (fname data) ".dat" = true ->
  get_scan_parameters data = inl e -> is_ValueError e = false.
Proof.
  unfold get_scan_parameters. intros Hext H.
  destruct (Str.endswith (fname data) ".sxm"); [exact (get_sxm_parameters_inl _ _ H)|].
  simpl in Hext. rewrite Hext in H.
  pose proof (get_dat_parameters_first_missing data) as Hm.
  destruct (first_missing (header data) (dat_keys data)) as [k|].
  - rewrite Hm in H. injection H as <-. reflexivity.
  - destruct Hm as [p Hp]. rewrite Hp in H. discriminate H.
Qed.

(** A recognised record whose parameters cannot be extracted leaves the
    slide with its title only. *)
Lemma add_slide_without_parameters C prs data e :
  Str.endswith (fname data) ".sxm" || Str.endswith (fname data) ".dat" = true ->
  get_scan_parameters data = inl e ->
  add_slide C prs data = ((prs ++ [Slide ("File: " +:+ fname data) [] []])%list, inl e).
Proof.
  intros Hext. unfold add_slide, fill_slide, get_scan_parameters.
  destruct (Str.endswith (fname data) ".sxm").
  - intros He. unfold sbind, lift. rewrite He. reflexivity.
  - simpl in Hext. rewrite Hext. intros He. unfold sbind, lift. rewrite He. reflexivity.
Qed.

(** X8. When the record loaded for an index is a topography or a point
    spectroscopy whose parameters cannot be extracted (a header entry is
    missing, the scan geometry is not a pair of numbers), the failure is
    not a value error: the run stops at that index without saving, and the
    presentation is left with an empty slide that bears the file's title. *)
Theorem extraction_failure_aborts_run (C : Collab) (self : DataToPPT)
    (done rest : list Z) (i : Z) (prs prs1 : presentation) (out1 out : list string)
    (data : NData) (e : exn) :
  index_range self = (done ++ i :: rest)%list ->
  batch_loop C self done prs = (prs1, out1, inr tt) ->
  NanonisData C (base_path self) (FInt i) (keyword self) = (out, inr data) ->
  Str.endswith (fname data) ".sxm" || Str.endswith (fname data) ".dat" = true ->
  get_scan_parameters data = inl e ->
  generate_ppt C self prs
  = ((prs1 ++ [Slide ("File: " +:+ fname data) [] []])%list,
     banner self :: (out1 ++ out ++ ["Processing file: " +:+ fname data])%list,
     inl e).
Proof.
  intros Hr Hdone Hload Hext He.
  assert (Hstep : try_body C self i prs1
                  = ((prs1 ++ [Slide ("File: " +:+ fname data) [] []])%list,
                     (out ++ ["Processing file: " +:+ fname data])%list, inl e)).
  { unfold try_body. rewrite Hload, (add_slide_without_parameters _ _ _ _ Hext He).
    reflexivity. }
  unfold generate_ppt. rewrite Hr, batch_loop_app, Hdone.
  rewrite (batch_loop_raise _ _ _ _ _ _ _ _ Hstep (get_scan_parameters_inl _ _ Hext He)).
  reflexivity.
Qed.

Lemma extraction_failure_aborts_run_witness :
  exists out,
    generate_ppt Samples.mixed_lab Samples.mixed_run []
    = ([Slide "File: nohdr_0010.sxm" [] []], out, inl (KeyError "scan_pixels")).
Proof.
  eexists.
  apply (extraction_failure_aborts_run Samples.mixed_lab Samples.mixed_run
           [9%Z] [11%Z] 10%Z [] []
           ["Skipping number 9: Unsupported file extension: .txt"] []
           Samples.nohdr_0010 (KeyError "scan_pixels")); reflexivity.
Defined.

(** ** What [add_slide] leaves on the slide *)

Lemma process_sxm_file_shape C data imgs :
  process_sxm_file C data = inr imgs ->
  if bool_decide ("LI_Demod_1_X" ∈ dom (signals data))
  then exists a b c, imgs = [a; b; c]
  else exists a b, imgs = [a; b].
Proof.
  intros H. unfold process_sxm_file, get_3sigma_limits in H.
  cbv beta iota zeta in H. peel H.
  destruct (bool_decide ("LI_Demod_1_X" ∈ dom (signals data))).
  - peel H. injection H as Hi. subst imgs. eauto.
  - injection H as Hi. subst imgs. eauto.
Qed.

Lemma process_dat_file_shape C data params imgs :
  get_dat_parameters data = inr params ->
  process_dat_file C data = inr imgs ->
  if bool_decide ("sweep_z" ∈ dom params)
  then exists a b, imgs = [a; b]
  else exists a b c, imgs = [a; b; c].
Proof.
  intros Hp H. unfold process_dat_file in H. rewrite Hp in H. simpl in H.
  destruct (bool_decide ("sweep_z" ∈ dom params)); peel H;
    injection H as Hi; subst imgs; eauto.
Qed.

(** X9. What [add_slide] does with a topography (a name ending in .sxm),
    case by case: a failure of the extraction or of the renderer leaves a
    slide with its title only; a failure of the caption leaves the title
    and the whole row of pictures; otherwise the slide carries the title,
    the rendered images in their order as a row, and one caption box.
    Pictures are placed all or none, and the unpacking of the renderer's
    result never fails. *)
Theorem add_slide_topography (C : Collab) (prs : presentation) (data : NData) :
  Str.endswith (fname data) ".sxm" = true ->
  add_slide C prs data
  = let title := "File: " +:+ fname data in
    match get_scan_parameters data with
    | inl e => ((prs ++ [Slide title [] []])%list, inl e)
    | inr params =>
        match process_sxm_file C data with
        | inl e => ((prs ++ [Slide title [] []])%list, inl e)
        | inr imgs =>
            match get_sxm_info_text C params with
            | inl e => ((prs ++ [Slide title (picture_row imgs) []])%list, inl e)
            | inr info_text =>
                ((prs ++ [Slide title (picture_row imgs)
                                [caption_box row_text_top info_text]])%list, inr tt)
            end
        end
    end.
Proof.
  intros Hext.
  cbv beta iota zeta delta [add_slide fill_slide sbind lift sret place2 place3
                            add_picture add_textbox].
  rewrite Hext.
  destruct (get_scan_parameters data) as [e|params]; [reflexivity|].
  destruct (process_sxm_file C data) as [e|imgs] eqn:Himg;
    [destruct (bool_decide _); reflexivity|].
  apply process_sxm_file_shape in Himg.
  destruct (bool_decide ("LI_Demod_1_X" ∈ dom (signals data))).
  - destruct Himg as (a & b & c & ->). simpl.
    destruct (get_sxm_info_text C params); reflexivity.
  - destruct Himg as (a & b & ->). simpl.
    destruct (get_sxm_info_text C params); reflexivity.
Qed.

Lemma add_slide_topography_witness :
  exists imgs info_text,
    process_sxm_file Samples.lab Samples.lockin_0013 = inr imgs
    /\ add_slide Samples.lab [] Samples.lockin_0013
       = ([Slide "File: lockin_0013.sxm" (picture_row imgs)
                 [caption_box row_text_top info_text]], inr tt)
    /\ length (picture_row imgs) = 3%nat.
Proof.
  rewrite (add_slide_topography Samples.lab [] Samples.lockin_0013 eq_refl).
  eexists _, _. repeat split; vm_compute; reflexivity.
Defined.

(** X10. What [add_slide] does with a point spectroscopy (a name ending in
    .dat and not in .sxm), case by case, as for a topography: title only
    when the extraction or the renderer fails, title and pictures when the
    caption fails, title, pictures and caption otherwise. The branch
    [add_slide] takes on 'sweep_z' always agrees with the number of images
    the renderer returns. *)
Theorem add_slide_spectroscopy (C : Collab) (prs : presentation) (data : NData) :
  Str.endswith (fname data) ".sxm" = false ->
  Str.endswith (fname data) ".dat" = true ->
  add_slide C prs data
  = let title := "File: " +:+ fname data in
    match get_dat_parameters data with
    | inl e => ((prs ++ [Slide title [] []])%list, inl e)
    | inr params =>
        match process_dat_file C data with
        | inl e => ((prs ++ [Slide title [] []])%list, inl e)
        | inr imgs =>
            match get_dat_info_text C params with
            | inl e => ((prs ++ [Slide title (picture_row imgs) []])%list, inl e)
            | inr info_text =>
                ((prs ++ [Slide title (picture_row imgs)
                                [caption_box row_text_top info_text]])%list, inr tt)
            end
        end
    end.
Proof.
  intros Hsxm Hdat.
  cbv beta iota zeta delta [add_slide fill_slide sbind lift sret place2 place3
                            add_picture add_textbox].
  rewrite Hsxm, Hdat.
  destruct (get_dat_parameters data) as [e|params] eqn:Hp; [reflexivity|].
  destruct (process_dat_file C data) as [e|imgs] eqn:Himg;
    [destruct (bool_decide _); reflexivity|].
  apply (process_dat_file_shape _ _ _ _ Hp) in Himg.
  destruct (bool_decide ("sweep_z" ∈ dom params)).
  - destruct Himg as (a & b & ->). simpl.
    destruct (get_dat_info_text C params); reflexivity.
  - destruct Himg as (a & b & c & ->). simpl.
    destruct (get_dat_info_text C params); reflexivity.
Qed.

Lemma add_slide_spectroscopy_witness :
  exists imgs info_text,
    process_dat_file Samples.lab Samples.zsweep_0014 = inr imgs
    /\ add_slide Samples.lab [] Samples.zsweep_0014
       = ([Slide "File: zsweep_0014.dat" (picture_row imgs)
                 [caption_box row_text_top info_text]], inr tt)
    /\ length (picture_row imgs) = 2%nat.
Proof.
  rewrite (add_slide_spectroscopy Samples.lab [] Samples.zsweep_0014 eq_refl eq_refl).
  eexists _, _. repeat split; vm_compute; reflexivity.
Defined.

(** ** Rendering of a point spectroscopy *)

Lemma first_missing_none {A} (d : gmap string A) keys :
  has_keys d keys -> first_missing d keys = None.
Proof.
  unfold has_keys, first_missing.
  induction 1 as [|k keys [v Hv] _ IH]; simpl; [reflexivity|].
  rewrite Hv. exact IH.
Qed.

(** The extracted mapping has 'sweep_z' exactly for a Z sweep. *)
Lemma sweep_z_in_params data params :
  get_dat_parameters data = inr params ->
  bool_decide ("sweep_z" ∈ dom params)
  = bool_decide ("Z rel (m)" ∈ dom (signals data)).
Proof.
  intros H. unfold get_dat_parameters in H.
  destruct (bool_decide ("Z rel (m)" ∈ dom (signals data))); peel H;
    injection H as Hp; subst params; reflexivity.
Qed.

(** X11. When the renderer returns for a point-spectroscopy record, it
    returns, for a Z sweep (signals contain "Z rel (m)"), the current
    against the height in nm and nA on a linear and on a logarithmic
    scale, two images; for a bias sweep, the scaled dI/dV in nS, the
    normalised dI/dV and the current in pA against the bias, three images.
    It does return when the header holds the entries read and the plotting
    collaborators do their part. *)
Theorem process_dat_file_images (C : Collab) (data : NData) :
  (forall imgs, process_dat_file C data = inr imgs ->
     ("Z rel (m)" ∈ dom (signals data) ->
      exists spec_z linear log,
        get_iz C data = inr spec_z
        /\ savefig C (curve_figure (arr_scale spec_z.1 1e9) (arr_scale spec_z.2 1e9)
                                   "Z (nm)" "Current (nA)" [])
                   (Some 0.1%float) = inr linear
        /\ savefig C (curve_figure (arr_scale spec_z.1 1e9)
                                   (arr_abs (arr_scale spec_z.2 1e9))
                                   "Z (nm)" "|Current| (nA)" [yscale "log"; grid true])
                   (Some 0.1%float) = inr log
        /\ imgs = [linear; log])
     /\ ("Z rel (m)" ∉ dom (signals data) ->
         exists scaled norm iv img1 img2 img3,
           didv_scaled C data = inr scaled
           /\ savefig C (curve_figure scaled.1 (arr_scale scaled.2 1e9)
                                      "Bias (V)" "dI/dV (nS)" [])
                      (Some 0.1%float) = inr img1
           /\ didv_normalized C data = inr norm
           /\ savefig C (curve_figure norm.1 norm.2 "Bias (V)" "Norm. dI/dV" [])
                      (Some 0.1%float) = inr img2
           /\ iv_raw C data = inr iv
           /\ savefig C (curve_figure iv.1 (arr_scale iv.2 1e12)
                                      "Bias (V)" "Current (pA)" [])
                      (Some 0.1%float) = inr img3
           /\ imgs = [img1; img2; img3]))
  /\ (has_keys (header data) (dat_keys data) -> dat_backend_ok C data ->
      exists imgs,
        process_dat_file C data = inr imgs
        /\ length imgs = if bool_decide ("Z rel (m)" ∈ dom (signals data))
                         then 2%nat else 3%nat).
Proof.
  split.
  - intros imgs H. unfold process_dat_file in H.
    apply rbind_inr in H as (params & Hp & H).
    cbv zeta in H. rewrite (sweep_z_in_params _ _ Hp) in H.
    destruct (bool_decide ("Z rel (m)" ∈ dom (signals data))) eqn:Hk;
      [apply bool_decide_eq_true in Hk | apply bool_decide_eq_false in Hk];
      peel H; injection H as Hi; subst imgs.
    + split; [|intros Hn; contradiction]. intros _.
      eexists _, _, _. repeat split; eassumption.
    + split; [intros Hin; contradiction|]. intros _.
      eexists _, _, _, _, _, _. repeat split; eassumption.
  - intros Hh (Hz & Hb & Hs).
    pose proof (get_dat_parameters_first_missing data) as Hm.
    assert (Hnone : first_missing (header data) (dat_keys data) = None)
      by apply first_missing_none, Hh.
    rewrite Hnone in Hm. destruct Hm as [params Hp].
    unfold process_dat_file. rewrite Hp. simpl.
    rewrite (sweep_z_in_params _ _ Hp).
    destruct (bool_decide ("Z rel (m)" ∈ dom (signals data))) eqn:Hk;
      [apply bool_decide_eq_true in Hk | apply bool_decide_eq_false in Hk].
    + destruct (Hz Hk) as [spec_z ->]. simpl.
      destruct (Hs (Figure (5, 5)%float
                      [plot (arr_scale spec_z.1 1e9) (arr_scale spec_z.2 1e9) "k-";
                       xlabel "Z (nm)"; ylabel "Current (nA)"]) (Some 0.1%float))
        as [a ->]. simpl.
      destruct (Hs (Figure (5, 5)%float
                      [plot (arr_scale spec_z.1 1e9) (arr_abs (arr_scale spec_z.2 1e9)) "k-";
                       xlabel "Z (nm)"; ylabel "|Current| (nA)"; yscale "log"; grid true])
                   (Some 0.1%float)) as [b ->]. simpl.
      eexists. split; reflexivity.
    + destruct (Hb Hk) as ([c1 ->] & [c2 Hc2] & [c3 Hc3]). simpl.
      destruct (Hs (Figure (5, 5)%float
                      [plot c1.1 (arr_scale c1.2 1e9) "k-";
                       xlabel "Bias (V)"; ylabel "dI/dV (nS)"]) (Some 0.1%float))
        as [a ->]. simpl. rewrite Hc2. simpl.
      destruct (Hs (Figure (5, 5)%float
                      [plot c2.1 c2.2 "k-";
                       xlabel "Bias (V)"; ylabel "Norm. dI/dV"]) (Some 0.1%float))
        as [b ->]. simpl. rewrite Hc3. simpl.
      destruct (Hs (Figure (5, 5)%float
                      [plot c3.1 (arr_scale c3.2 1e12) "k-";
                       xlabel "Bias (V)"; ylabel "Current (pA)"]) (Some 0.1%float))
        as [c ->]. simpl.
      eexists. split; reflexivity.
Qed.

Lemma process_dat_file_images_witness :
  (exists imgs, process_dat_file Samples.lab Samples.zsweep_0014 = inr imgs
                /\ length imgs = 2%nat)
  /\ (exists imgs, process_dat_file Samples.lab Samples.bias_0012 = inr imgs
                   /\ length imgs = 3%nat).
Proof.
  split.
  - destruct (process_dat_file_images Samples.lab Samples.zsweep_0014) as [H _].
    destruct (process_dat_file Samples.lab Samples.zsweep_0014) as [e|imgs] eqn:Hp;
      [vm_compute in Hp; discriminate Hp|].
    destruct (H imgs eq_refl) as [Hin _].
    destruct Hin as (spec_z & linear & log & _ & _ & _ & ->); [by_compute|].
    eexists. split; reflexivity.
  - destruct (process_dat_file_images Samples.lab Samples.bias_0012) as [_ H].
    destruct H as (imgs & Hi & Hl).
    + repeat constructor; eexists; vm_compute; reflexivity.
    + repeat split.
      * intros Hin. exfalso. revert Hin. by_compute.
      * eexists. vm_compute. reflexivity.
      * eexists. vm_compute. reflexivity.
      * eexists. vm_compute. reflexivity.
      * intros fig pad. eexists. reflexivity.
    + exists imgs. split; [exact Hi | exact Hl].
Defined.

(** ** Captions of extracted parameters *)

(** X12. On the parameters extracted from a topography the caption needs
    nothing but the three conversions [float(bias)], [float(current)] and
    [float(angle)], tried in this order: every lookup finds its entry and
    the scan range is a pair of numbers, so the caption fails only where a
    conversion does, and otherwise reads "<bias> V / <current> nA|pA",
    the range in nm, the direction and angle, and the date
    year.month.day_time. *)
Theorem sxm_caption_after_extraction (C : Collab) (data : NData)
    (params : gmap string value) :
  get_sxm_parameters data = inr params ->
  exists bias current angle direction scan_time rec_date px py rx ry,
    header data !! "bias>bias (v)" = Some bias
    /\ header data !! "z-controller>setpoint" = Some current
    /\ header data !! "scan_angle" = Some angle
    /\ header data !! "scan_dir" = Some direction
    /\ header data !! "rec_time" = Some scan_time
    /\ header data !! "rec_date" = Some rec_date
    /\ scan_geometry data px py rx ry
    /\ get_sxm_info_text C params
       = (let* b := to_float C bias in
          let* c := to_float C current in
          let* a := to_float C angle in
          inr (sxm_caption C b c rx ry direction a (sxm_format_date rec_date) scan_time)).
Proof.
  intros H. unfold get_sxm_parameters in H. peel H.
  injection H as Hp.
  apply mul_inr in Hv13 as (p & r & -> & -> & ->).
  apply truediv_inr in Hv9 as (px & py & -> & -> & Hpy & [= ->]).
  apply truediv_inr in Hv12 as (ry & rx & -> & -> & Hrx & [= ->]).
  apply getindex_num in Hv7 as (lp & -> & Hp0).
  apply getindex_num in Hv8 as (lp' & [= <-] & Hp1).
  apply getindex_num in Hv10 as (lr & -> & Hr1).
  apply getindex_num in Hv11 as (lr' & [= <-] & Hr0).
  lookups.
  exists v3, v4, v2, v1, v5, v6, px, py, rx, ry.
  repeat (split; [first [assumption | reflexivity]|]).
  split; [exists lp, lr; repeat split; first [assumption | reflexivity]|].
  assert (Lb : params !! "bias" = Some v3) by (subst params; reflexivity).
  assert (Lc : params !! "current" = Some v4) by (subst params; reflexivity).
  assert (Lr : params !! "range" = Some (VTuple lr)) by (subst params; reflexivity).
  assert (Ld : params !! "direction" = Some v1) by (subst params; reflexivity).
  assert (La : params !! "angle" = Some v2) by (subst params; reflexivity).
  assert (Lsd : params !! "scan_date" = Some (sxm_format_date v6))
    by (subst params; reflexivity).
  assert (Lst : params !! "scan_time" = Some v5) by (subst params; reflexivity).
  clear Hp. unfold get_sxm_info_text, getitem.
  rewrite Lb, Lc, Lr, Ld, La, Lsd, Lst. simpl.
  destruct (to_float C v3) as [e|b]; [reflexivity|]. simpl.
  destruct (to_float C v4) as [e|c]; [reflexivity|]. simpl.
  rewrite Hr0, Hr1. simpl.
  destruct (to_float C v2) as [e|a]; reflexivity.
Qed.

Lemma sxm_caption_after_extraction_witness :
  exists params text,
    get_sxm_parameters Samples.topo_0010 = inr params
    /\ get_sxm_info_text Samples.lab params = inr text.
Proof.
  destruct (get_sxm_parameters Samples.topo_0010) as [e|params] eqn:Hp;
    [vm_compute in Hp; discriminate Hp|].
  destruct (sxm_caption_after_extraction Samples.lab Samples.topo_0010 params Hp)
    as (bias & current & angle & direction & scan_time & rec_date & px & py & rx & ry
        & Hb & Hc & Ha & _ & _ & _ & _ & Ht).
  vm_compute in Hb, Hc, Ha.
  injection Hb as <-. injection Hc as <-. injection Ha as <-.
  exists params. eexists. split; [reflexivity|]. rewrite Ht. reflexivity.
Defined.

(** X13. On the parameters extracted from a point spectroscopy the caption
    takes the branch of the record (Z sweep exactly when the signals
    contain "Z rel (m)") and needs nothing but [float] conversions: of the
    bias and the set-point current for a Z sweep, and of the sweep start
    and the sweep end as well for a bias sweep, tried in this order. No
    lookup fails; the date shown is the reformatted 'Saved Date'. *)
Theorem dat_caption_after_extraction (C : Collab) (data : NData)
    (params : gmap string value) :
  get_dat_parameters data = inr params ->
  exists bias current saved_date,
    header data !! "Bias>Bias (V)" = Some bias
    /\ header data !! "Z-Controller>Setpoint" = Some current
    /\ header data !! "Saved Date" = Some saved_date
    /\ ("Z rel (m)" ∈ dom (signals data) ->
        get_dat_info_text C params
        = (let* b := to_float C bias in
           let* c := to_float C current in
           inr (z_sweep_caption C b c (dat_format_date saved_date))))
    /\ ("Z rel (m)" ∉ dom (signals data) ->
        exists sweep_start sweep_end sweep_num,
          header data !! "Bias Spectroscopy>Sweep Start (V)" = Some sweep_start
          /\ header data !! "Bias Spectroscopy>Sweep End (V)" = Some sweep_end
          /\ header data !! "Bias Spectroscopy>Number of sweeps" = Some sweep_num
          /\ get_dat_info_text C params
             = (let* b := to_float C bias in
                let* c := to_float C current in
                let* s := to_float C sweep_start in
                let* e := to_float C sweep_end in
                inr (bias_sweep_caption C b c s e sweep_num
                                        (dat_format_date saved_date)))).
Proof.
  intros H. pose proof (sweep_z_in_params _ _ H) as Hsz.
  unfold get_dat_parameters in H.
  destruct (bool_decide ("Z rel (m)" ∈ dom (signals data))) eqn:Hk;
    [apply bool_decide_eq_true in Hk | apply bool_decide_eq_false in Hk];
    peel H; injection H as Hp.
  - apply getitem_inr in Hv, Hv0, Hv6.
    exists v, v0, v6. repeat (split; [assumption|]).
    split; [|intros Hn; contradiction]. intros _.
    assert (Lb : params !! "bias" = Some v) by (subst params; reflexivity).
    assert (Lc : params !! "current" = Some v0) by (subst params; reflexivity).
    assert (Ls : params !! "saved_date" = Some (dat_format_date v6))
      by (subst params; reflexivity).
    clear Hp. unfold get_dat_info_text, getitem. rewrite Hsz, Lb, Lc, Ls. simpl.
    destruct (to_float C v) as [e|b]; [reflexivity|]. simpl.
    destruct (to_float C v0) as [e|c]; reflexivity.
  - apply getitem_inr in Hv, Hv0, Hv1, Hv2, Hv3, Hv5.
    exists v, v0, v5. repeat (split; [assumption|]).
    split; [intros Hin; contradiction|]. intros _.
    exists v1, v2, v3. repeat (split; [assumption|]).
    assert (Lb : params !! "bias" = Some v) by (subst params; reflexivity).
    assert (Lc : params !! "current" = Some v0) by (subst params; reflexivity).
    assert (L1 : params !! "sweep_start" = Some v1) by (subst params; reflexivity).
    assert (L2 : params !! "sweep_end" = Some v2) by (subst params; reflexivity).
    assert (L3 : params !! "sweep_num" = Some v3) by (subst params; reflexivity).
    assert (Ls : params !! "saved_date" = Some (dat_format_date v5))
      by (subst params; reflexivity).
    clear Hp. unfold get_dat_info_text, getitem.
    rewrite Hsz, Lb, Lc, L1, L2, L3, Ls. simpl.
    destruct (to_float C v) as [e|b]; [reflexivity|]. simpl.
    destruct (to_float C v0) as [e|c]; [reflexivity|]. simpl.
    destruct (to_float C v1) as [e|s]; [reflexivity|]. simpl.
    destruct (to_float C v2) as [e|e]; reflexivity.
Qed.

Lemma dat_caption_after_extraction_witness :
  exists params text,
    get_dat_parameters Samples.bias_0012 = inr params
    /\ get_dat_info_text Samples.lab params = inr text.
Proof.
  destruct (get_dat_parameters Samples.bias_0012) as [e|params] eqn:Hp;
    [vm_compute in Hp; discriminate Hp|].
  destruct (dat_caption_after_extraction Samples.lab Samples.bias_0012 params Hp)
    as (bias & current & saved_date & Hb & Hc & Hs & _ & Hbias).
  destruct Hbias as (s & e & n & H1 & H2 & H3 & Ht);
    [intros Hin; revert Hin; by_compute|].
  vm_compute in Hb, Hc, Hs, H1, H2, H3.
  injection Hb as <-. injection Hc as <-. injection Hs as <-.
  injection H1 as <-. injection H2 as <-. injection H3 as <-.
  exists params. eexists. split; [reflexivity|]. rewrite Ht. reflexivity.
Defined.

(** ** What a run does to the presentation *)

Lemma batch_loop_appends C self indices :
  forall prs,
  exists slides,
    (batch_loop C self indices prs).1.1 = (prs ++ slides)%list
    /\ (length slides <= length indices)%nat
    /\ Forall (fun s => exists i data,
                   i ∈ indices /\ loaded C self i = Some data
                   /\ slide_title s = title_of data) slides.
Proof.
  induction indices as [|i rest IH]; intros prs.
  - exists []. simpl. rewrite app_nil_r. repeat split; [lia | constructor].
  - destruct (try_body_slides C self i prs) as (out & r & Hstep).
    simpl batch_loop.
    assert (Hweak : forall p slides0,
               (length slides0 <= 1)%nat ->
               Forall (fun s => exists data, loaded C self i = Some data
                                             /\ slide_title s = title_of data) slides0 ->
               p = (prs ++ slides0)%list ->
               forall printed,
               exists slides,
                 (let '(prs'', out', r') := batch_loop C self rest p in
                  (prs'', (out ++ printed ++ out')%list, r')).1.1 = (prs ++ slides)%list
                 /\ (length slides <= S (length rest))%nat
                 /\ Forall (fun s => exists j data,
                                j ∈ i :: rest /\ loaded C self j = Some data
                                /\ slide_title s = title_of data) slides).
    { intros p slides0 Hlen Hall -> printed.
      destruct (IH (prs ++ slides0)%list) as (slides & Heq & Hl & Hf).
      destruct (batch_loop C self rest (prs ++ slides0)%list) as [[p' o'] r'].
      simpl in *. exists (slides0 ++ slides)%list. subst p'.
      rewrite app_assoc, length_app. repeat split; [lia|].
      apply Forall_app. split.
      - eapply Forall_impl; [exact Hall|]. intros s (d & Hd & Ht).
        exists i, d. repeat split; [left | assumption | assumption].
      - eapply Forall_impl; [exact Hf|]. intros s (j & d & Hj & Hd & Ht).
        exists j, d. repeat split; [right; exact Hj | assumption | assumption]. }
    assert (Hstop : forall p slides0 (out0 : list string) e,
               (length slides0 <= 1)%nat ->
               Forall (fun s => exists data, loaded C self i = Some data
                                             /\ slide_title s = title_of data) slides0 ->
               p = (prs ++ slides0)%list ->
               exists slides,
                 (p, out0, @inl exn unit e).1.1 = (prs ++ slides)%list
                 /\ (length slides <= S (length rest))%nat
                 /\ Forall (fun s => exists j data,
                                j ∈ i :: rest /\ loaded C self j = Some data
                                /\ slide_title s = title_of data) slides).
    { intros p slides0 out0 e Hlen Hall ->. exists slides0.
      repeat split; [lia|].
      eapply Forall_impl; [exact Hall|]. intros s (d & Hd & Ht).
      exists i, d. repeat split; [left | assumption | assumption]. }
    destruct (loaded C self i) as [data|].
    + destruct Hstep as (s & -> & Ht).
      assert (Hall : Forall (fun s0 => exists data0, Some data = Some data0
                                         /\ slide_title s0 = title_of data0) [s])
        by (repeat constructor; eauto).
      assert (Hlen : (length [s] <= 1)%nat) by (simpl; lia).
      destruct r as [e|u]; [destruct (is_ValueError e)|].
      * exact (Hweak _ [s] Hlen Hall eq_refl [_]).
      * exact (Hstop _ [s] _ e Hlen Hall eq_refl).
      * exact (Hweak _ [s] Hlen Hall eq_refl []).
    + destruct Hstep as (-> & e & ->).
      assert (Hlen : (length (@nil slide) <= 1)%nat) by (simpl; lia).
      assert (Hnil : prs = (prs ++ [])%list) by (symmetry; apply app_nil_r).
      destruct (is_ValueError e).
      * exact (Hweak _ [] Hlen (List.Forall_nil _) Hnil [_]).
      * exact (Hstop _ [] _ e Hlen (List.Forall_nil _) Hnil).
Qed.

(** X14. A run only appends: however it ends, the presentation it leaves
    is the one it was given followed by new slides, at most one per index,
    and each new slide is titled after a record that the loader returned
    for one of the indices. No slide is added for an index that did not
    load. *)
Theorem generate_ppt_only_appends (C : Collab) (self : DataToPPT) (prs : presentation) :
  exists slides,
    (generate_ppt C self prs).1.1 = (prs ++ slides)%list
    /\ (length slides <= length (index_range self))%nat
    /\ Forall (fun s => exists i data,
                   i ∈ index_range self /\ loaded C self i = Some data
                   /\ slide_title s = "File: " +:+ fname data) slides.
Proof.
  destruct (batch_loop_appends C self (index_range self) prs) as (slides & Heq & Hl & Hf).
  exists slides. split; [|split; assumption].
  unfold generate_ppt.
  destruct (batch_loop C self (index_range self) prs) as [[p o] [e|u]]; [exact Heq|].
  destruct (prs_save C p (save_path self)); exact Heq.
Qed.

Lemma try_body_skip C self i prs :
  glob C (pattern (base_path self) (FInt i) (keyword self)) = [] ->
  try_body C self i prs = (prs, [], inl (no_file_found (FInt i) (keyword self))).
Proof.
  intros H0. unfold try_body, NanonisData, resolve. rewrite H0. reflexivity.
Qed.

Lemma batch_loop_without_files C self indices prs :
  (forall i, i ∈ indices ->
             glob C (pattern (base_path self) (FInt i) (keyword self)) = []) ->
  batch_loop C self indices prs = (prs, map (skip_line self) indices, inr tt).
Proof.
  induction indices as [|i rest IH]; intros H; [reflexivity|].
  simpl. rewrite (try_body_skip _ _ _ _ (H i ltac:(left))).
  rewrite IH by (intros j Hj; apply H; right; exact Hj).
  unfold no_file_found, skip_line. unfold no_file_found.
  destruct (truthy (keyword self)); reflexivity.
Qed.

(** X15. A run over indices none of which matches a file adds no slide,
    prints the banner and one "Skipping number <i>: No file found ..." line
    per index, and still saves the presentation, unchanged; when the save
    succeeds it prints "PPT has been saved as <path>" last, and when the
    save raises, the run ends with that exception. In particular a run
    over an empty range (end below start) prints the banner, saves the
    presentation as it was given and prints the saved line. *)
Theorem run_without_files (C : Collab) (self : DataToPPT) (prs : presentation) :
  ((forall i, i ∈ index_range self ->
              glob C (pattern (base_path self) (FInt i) (keyword self)) = []) ->
   generate_ppt C self prs
   = match prs_save C prs (save_path self) with
     | inl e => (prs, banner self :: map (skip_line self) (index_range self), inl e)
     | inr _ =>
         (prs, (banner self :: map (skip_line self) (index_range self)
                ++ [saved_line self])%list, inr tt)
     end)
  /\ ((end_num self < start_num self)%Z ->
      generate_ppt C self prs
      = match prs_save C prs (save_path self) with
        | inl e => (prs, [banner self], inl e)
        | inr _ => (prs, [banner self; saved_line self], inr tt)
        end).
Proof.
  assert (Hgen : (forall i, i ∈ index_range self ->
                    glob C (pattern (base_path self) (FInt i) (keyword self)) = []) ->
                 generate_ppt C self prs
                 = match prs_save C prs (save_path self) with
                   | inl e =>
                       (prs, banner self :: map (skip_line self) (index_range self), inl e)
                   | inr _ =>
                       (prs, (banner self :: map (skip_line self) (index_range self)
                              ++ [saved_line self])%list, inr tt)
                   end).
  { intros H. unfold generate_ppt. rewrite (batch_loop_without_files _ _ _ _ H).
    reflexivity. }
  split; [exact Hgen|].
  intros Hlt.
  assert (Hemp : index_range self = []).
  { unfold index_range, seqZ.
    replace (Z.to_nat (end_num self + 1 - start_num self)) with 0%nat by lia.
    reflexivity. }
  rewrite Hgen; rewrite Hemp; [reflexivity|].
  intros i Hi. inversion Hi.
Qed.

Lemma run_without_files_witness :
  generate_ppt Samples.lab
    {| base_path := "/data/"; start_num := 20; end_num := 21;
       keyword := Some "Au"; output_filename := "out.pptx" |} []
  = ([], ["Generating PPT for files 20 to 21...";
          "Skipping number 20: No file found with number 0020 and keyword 'Au'";
          "Skipping number 21: No file found with number 0021 and keyword 'Au'";
          "PPT has been saved as /data/PPT/out.pptx"],
     inr tt)
  /\ generate_ppt Samples.lab
       {| base_path := "/data/"; start_num := 5; end_num := 4;
          keyword := None; output_filename := "out.pptx" |} []
     = ([], ["Generating PPT for files 5 to 4...";
             "PPT has been saved as /data/PPT/out.pptx"], inr tt).
Proof.
  split.
  - destruct (run_without_files Samples.lab
                {| base_path := "/data/"; start_num := 20; end_num := 21;
                   keyword := Some "Au"; output_filename := "out.pptx" |} []) as [H _].
    rewrite H; [reflexivity|].
    intros i Hi. apply elem_of_seqZ in Hi. simpl in Hi.
    assert (Hc : i = 20%Z \/ i = 21%Z) by lia.
    destruct Hc as [-> | ->]; reflexivity.
  - destruct (run_without_files Samples.lab
                {| base_path := "/data/"; start_num := 5; end_num := 4;
                   keyword := None; output_filename := "out.pptx" |} []) as [_ H].
    rewrite H; [reflexivity | simpl; lia].
Defined.
